(** * meticulous: the interaction channel and the submission pipeline

    A shallow embedding of [meticulous/_webstate.py] (the [StateHandler]
    rendezvous between the worker thread and the web responders) and of
    [meticulous/_submit.py] (the submission task handlers), followed by the
    properties established about them. *)

From stdpp Require Import gmap strings list fin_maps pretty.
From Stdlib Require Import Ascii.

(** ** Part I: [_webstate.py] *)

Module WebState.

(** [uuid.uuid4()] values are opaque identifiers. *)
Definition UUID := N.

(** The two [Awaiter] subclasses. *)
Inductive Awaiter : Type :=
| Confirmation (uuid : UUID) (message : string) (defaultval : bool)
| Input (uuid : UUID) (message : string).

Definition awaiter_uuid (k : Awaiter) : UUID :=
  match k with
  | Confirmation u _ _ => u
  | Input u _ => u
  end.

(** What a responder can store in [response_val]; Python's [None] is the
    [None] of [option Answer]. *)
Inductive Answer : Type :=
| AnsBool (b : bool)
| AnsText (s : string).

(** Attributes of a [StateHandler] instance.  [started_at] is [None] for
    [datetime.datetime.min]; [thread] is [None] or the worker's handle. *)
Record StateHandler : Type := mkState {
  alive : bool;
  started_at : option N;
  messages : list string;
  await_key : option Awaiter;
  response_val : option Answer;
  thread : option unit
}.

(** [StateHandler.__init__] *)
Definition init : StateHandler :=
  mkState false None [] None None None.

Definition set_alive (b : bool) (s : StateHandler) : StateHandler :=
  mkState b (started_at s) (messages s) (await_key s) (response_val s) (thread s).

Definition set_started_at (t : option N) (s : StateHandler) : StateHandler :=
  mkState (alive s) t (messages s) (await_key s) (response_val s) (thread s).

Definition set_await_key (k : option Awaiter) (s : StateHandler) : StateHandler :=
  mkState (alive s) (started_at s) (messages s) k (response_val s) (thread s).

Definition set_response_val (r : option Answer) (s : StateHandler) : StateHandler :=
  mkState (alive s) (started_at s) (messages s) (await_key s) r (thread s).

Definition set_thread (t : option unit) (s : StateHandler) : StateHandler :=
  mkState (alive s) (started_at s) (messages s) (await_key s) (response_val s) t.

(** [StateHandler.send]: [self.messages.append(message)] *)
Definition send (message : string) (s : StateHandler) : StateHandler :=
  mkState (alive s) (started_at s) (messages s ++ [message])
          (await_key s) (response_val s) (thread s).

(** The first two statements of [get_await], executed with the condition's
    lock held: [self.response_val = None; self.await_key = key]. *)
Definition get_await_enter (key : Awaiter) (s : StateHandler) : StateHandler :=
  set_await_key (Some key) (set_response_val None s).

(** The loop test of [get_await]: [self.response_val is None]. *)
Definition still_waiting (s : StateHandler) : bool :=
  match response_val s with
  | None => true
  | Some _ => false
  end.

(** Modelled from the spec: [answer(value)], the operation by which a
    responder thread delivers an answer, is not part of [_webstate.py].  The
    spec (4.1, 3): with the lock held it sets the answer slot and notifies the
    condition; when no PendingQuestion is outstanding it is a no-op; the
    PendingQuestion slot is cleared the instant the answer is delivered. *)
Definition answer (value : option Answer) (s : StateHandler) : StateHandler :=
  match await_key s with
  | None => s
  | Some _ => set_await_key None (set_response_val value s)
  end.

(** Modelled from the spec: [submitAnswer(identifier, value)], the entry point
    of the display boundary (spec 6): the identifier is checked against the
    outstanding question and a mismatch is dropped. *)
Definition submitAnswer (identifier : UUID) (value : option Answer)
    (s : StateHandler) : StateHandler :=
  match await_key s with
  | Some k => if decide (awaiter_uuid k = identifier) then answer value s else s
  | None => s
  end.

(** *** The threads

    The worker thread executes [run]; a task handler running inside
    [multiworker_core] may call [send] and [get_await].  Its control points: *)
Inductive WorkerPc : Type :=
| WStarting                     (* the thread is created, [run] has not begun *)
| WLoopTest                     (* [run]: about to test [while self.alive] *)
| WInTask                       (* inside [multiworker_core], outside [get_await] *)
| WWaiting                      (* [get_await]: parked in [self.condition.wait(10)] *)
| WLeaving                      (* [get_await]: left the [with] block, before [return] *)
| WGot (r : option Answer)      (* [get_await] has returned [r] to the handler *)
| WExited.                      (* [run] has returned: the thread is finished *)

(** The thread calling [stop]. *)
Inductive StopPc : Type :=
| SIdle                         (* [stop] not called *)
| SJoining                      (* past [self.alive = False], inside [self.thread.join()] *)
| SReturned.                    (* [stop] has returned *)

Record Config : Type := mkConfig {
  st : StateHandler;
  worker : WorkerPc;
  stopper : StopPc
}.

(** One atomic action of one thread.  Actions of the worker: *)
Inductive Label : Type :=
| LRunBegin (now : N)           (* [self.started_at = now(); self.alive = True] *)
| LLoop                         (* evaluate [while self.alive] *)
| LSend (message : string)      (* the handler calls [send] *)
| LAsk (key : Awaiter)          (* the handler calls [get_await(key)] *)
| LWake                         (* [wait(10)] returns, on a notify or on its timeout *)
| LReturn                       (* evaluate [return self.response_val] *)
| LResume                       (* the handler goes on with the returned value *)
| LTaskEnd                      (* [multiworker_core] returns *)
(* of a responder thread: *)
| LAnswer (value : option Answer)
(* of the thread calling [stop]: *)
| LStop                         (* [self.alive = False] *)
| LJoin.                        (* [join] returns; [thread], [started_at] are reset *)

(** [fire l c]: the configuration after action [l]; an action that is not
    enabled in [c] leaves it as it is. *)
Definition fire (l : Label) (c : Config) : Config :=
  match l, worker c with
  | LRunBegin now, WStarting =>
      mkConfig (set_alive true (set_started_at (Some now) (st c))) WLoopTest (stopper c)
  | LLoop, WLoopTest =>
      mkConfig (st c) (if alive (st c) then WInTask else WExited) (stopper c)
  | LSend m, WInTask => mkConfig (send m (st c)) WInTask (stopper c)
  | LAsk key, WInTask =>
      (* the lock is held from the two assignments to the first [wait] *)
      let s := get_await_enter key (st c) in
      mkConfig s (if still_waiting s then WWaiting else WLeaving) (stopper c)
  | LWake, WWaiting =>
      mkConfig (st c) (if still_waiting (st c) then WWaiting else WLeaving) (stopper c)
  | LReturn, WLeaving => mkConfig (st c) (WGot (response_val (st c))) (stopper c)
  | LResume, WGot _ => mkConfig (st c) WInTask (stopper c)
  | LTaskEnd, WInTask => mkConfig (st c) WLoopTest (stopper c)
  | LAnswer v, _ => mkConfig (answer v (st c)) (worker c) (stopper c)
  | LStop, _ =>
      match stopper c with
      | SIdle => mkConfig (set_alive false (st c)) (worker c) SJoining
      | _ => c
      end
  | LJoin, WExited =>
      match stopper c with
      | SJoining =>
          mkConfig (set_started_at None (set_thread None (st c))) WExited SReturned
      | _ => c
      end
  | _, _ => c
  end.

(** A schedule is a list of actions, executed from left to right. *)
Definition run_schedule (ls : list Label) (c : Config) : Config :=
  fold_left (fun c l => fire l c) ls c.

(** The worker is not inside a call of [get_await]. *)
Definition outside_get_await (pc : WorkerPc) : bool :=
  match pc with
  | WStarting | WLoopTest | WInTask | WExited => true
  | WWaiting | WLeaving | WGot _ => false
  end.

(** [is_ask l]: [l] enters a new call of [get_await]. *)
Definition is_ask (l : Label) : bool :=
  match l with LAsk _ => true | _ => false end.

(** [delivers l]: [l] hands over a non-null value. *)
Definition delivers (l : Label) : bool :=
  match l with LAnswer (Some _) => true | _ => false end.

(** [is_answer l]: [l] is a call of [answer]. *)
Definition is_answer (l : Label) : bool :=
  match l with LAnswer _ => true | _ => false end.

(** The value of the first [answer] call of a schedule, if there is one. *)
Fixpoint first_answer (ls : list Label) : option (option Answer) :=
  match ls with
  | [] => None
  | LAnswer v :: _ => Some v
  | _ :: ls' => first_answer ls'
  end.

(** What holds of the slots at each control point of [get_await]. *)
Definition slots_ok (c : Config) : Prop :=
  match worker c with
  | WWaiting => response_val (st c) = None ∨ await_key (st c) = None
  | WLeaving => response_val (st c) ≠ None ∧ await_key (st c) = None
  | WGot r => r ≠ None
  | _ => True
  end.

(** Once an answer [v] is in the slot and the question is cleared, nothing
    but a new [get_await] changes either, and the call returns [v]. *)
Definition answered (v : Answer) (c : Config) : Prop :=
  response_val (st c) = Some v ∧ await_key (st c) = None
  ∧ ∀ r, worker c = WGot r → r = Some v.

(** *** Sample configurations *)

Definition sample_key : Awaiter := Confirmation 1%N "Do you want to continue" true.

(** The worker is running a task. *)
Definition in_task : Config :=
  mkConfig (set_thread (Some tt) (set_alive true init)) WInTask SIdle.

(** The worker has asked [sample_key] and is parked; nobody has answered. *)
Definition parked : Config := fire (LAsk sample_key) in_task.

End WebState.

(** ** Part II: [_submit.py] *)

Module Submit.

Definition MULTI_SAVE_KEY : string := "repository_saves_multi".
Definition ALWAYS_BATCH_MODE : bool := true.
Definition ALWAYS_ISSUE_AND_BRANCH : bool := true.
Definition ALWAYS_PLAIN_PR : bool := true.

(** The line feed, written [\n] in the Python source. *)
Definition nl : string := String "010"%char EmptyString.

(** *** Data *)

(** One saved fix: the dict built by [add_repo_save] and stored under
    [MULTI_SAVE_KEY], with its keys [reponame], [repodir], [add_word],
    [del_word] and [file_paths]. *)
Record RepoSave : Type := mkRepoSave {
  save_reponame : string;
  save_repodir : string;
  save_add_word : string;
  save_del_word : string;
  save_file_paths : list string
}.

Global Instance RepoSave_eq_dec : EqDecision RepoSave.
Proof. solve_decision. Defined.

(** The dicts handed to [context.controller.add]; a key that a dict does not
    have is [None]. *)
Record Task : Type := mkTask {
  name : string;
  interactive : bool;
  priority : option Z;
  task_reponame : string;
  repository_saves_multi : option (list RepoSave)
}.

(** The object returned by [create_pr]. *)
Record PullRequest : Type := mkPullRequest {
  number : N;
  html_url : string
}.

(** Calls to the external collaborators, in the order they are made. *)
Inductive Call : Type :=
| CallGit (cwd : string) (args : list string)
| CallGetUser
| CallCreatePr (repo title body from_branch to_branch : string).

(** The exceptions that the embedded code can raise. *)
Inductive exn : Type :=
| ValueError (msg : string)
| ProcessExecutionError           (* plumbum: the command exited with an error *)
| GithubException                 (* PyGithub: the API call failed *)
| NameError (name : string)
| AttributeError (type attr : string)
| KeyError (key : string)
| TypeError
| FileNotFoundError (path : string)
| PyException (msg : string).     (* [raise Exception(...)] *)

Inductive Res (A : Type) : Type :=
| Ok (a : A)
| Err (e : exn).
Arguments Ok {A} a.
Arguments Err {A} e.

(** Everything the handlers read or change: the files of the working copies,
    the JSON store, the tasks added to the controller, the messages sent to
    the interaction, and the log of external calls. *)
Record World : Type := mkWorld {
  files : gmap string string;
  storage : gmap string (list RepoSave);
  tasks : list Task;
  sent : list string;
  calls : list Call
}.

Definition set_files (f : gmap string string) (w : World) : World :=
  mkWorld f (storage w) (tasks w) (sent w) (calls w).
Definition set_storage (s : gmap string (list RepoSave)) (w : World) : World :=
  mkWorld (files w) s (tasks w) (sent w) (calls w).
Definition set_tasks (t : list Task) (w : World) : World :=
  mkWorld (files w) (storage w) t (sent w) (calls w).
Definition set_sent (m : list string) (w : World) : World :=
  mkWorld (files w) (storage w) (tasks w) m (calls w).
Definition set_calls (c : list Call) (w : World) : World :=
  mkWorld (files w) (storage w) (tasks w) (sent w) c.

(** *** The monad of handlers: state, and exceptions that keep the state *)

Definition M (A : Type) : Type := World -> Res A * World.

Definition ret {A} (a : A) : M A := fun w => (Ok a, w).
Definition raise {A} (e : exn) : M A := fun w => (Err e, w).
Definition bind {A B} (m : M A) (k : A -> M B) : M B :=
  fun w => match m w with
           | (Ok a, w') => k a w'
           | (Err e, w') => (Err e, w')
           end.

Global Instance M_ret : MRet M := @ret.
Global Instance M_bind : MBind M := fun A B k m => bind m k.

(** [try: m  except <the exceptions h accepts>: ...] *)
Definition try_except {A} (m : M A) (h : exn -> option (M A)) : M A :=
  fun w => match m w with
           | (Ok a, w') => (Ok a, w')
           | (Err e, w') =>
               match h e with
               | Some k => k w'
               | None => (Err e, w')
               end
           end.

(** *** Names

    A name is looked up in the function's local scope, then among the names
    bound at module level, then among the builtins; otherwise [NameError]. *)
Inductive Value : Type :=
| VStr (s : string)
| VBool (b : bool)
| VSave (r : RepoSave)
| VSaves (l : list RepoSave)
| VStrs (l : list string)
| VGlobal (name : string).

Definition module_names : list string :=
  [ "absolute_import"; "division"; "print_function";
    "io"; "os"; "pathlib"; "re"; "sys"; "Path";
    "GithubException"; "FG"; "ProcessExecutionError"; "local";
    "ProcessingFailed"; "create_pr"; "get_api"; "get_parent_repo";
    "UserCancel"; "make_choice"; "make_simple_choice"; "add_repo_save";
    "get_json_value"; "set_json_value"; "display_and_check_files"; "get_editor";
    "MULTI_SAVE_KEY"; "ALWAYS_BATCH_MODE"; "ALWAYS_ISSUE_AND_BRANCH";
    "ALWAYS_PLAIN_PR";
    "get_note"; "submit_handlers"; "submit"; "plain_pr"; "full_pr";
    "issue_and_branch"; "add_cleanup"; "fast_prepare_a_pr_or_issue_for";
    "check_if_plain_pr"; "plain_pr_for"; "full_pr_for"; "issue_and_branch_for";
    "prepare_a_pr_or_issue_for"; "get_pr_or_issue_choices"; "make_issue";
    "make_a_commit"; "make_a_commit_multi"; "submit_issue"; "issue_via_api";
    "load_commit_like_file"; "submit_commit";
    "non_interactive_submit_commit_multi";
    "non_interactive_prepare_commit_multi"; "push_commit_multi";
    "amend_commit"; "show_path"; "add_change_for_repo"; "get_typo" ].

(** The builtins that the module uses. *)
Definition builtin_names : list string :=
  [ "len"; "list"; "set"; "sum"; "any"; "str"; "print"; "zip";
    "ValueError"; "Exception"; "True"; "False"; "None" ].

Fixpoint assoc (x : string) (scope : list (string * Value)) : option Value :=
  match scope with
  | [] => None
  | (y, v) :: scope' => if String.eqb x y then Some v else assoc x scope'
  end.

Definition load_name (scope : list (string * Value)) (x : string) : M Value :=
  match assoc x scope with
  | Some v => ret v
  | None =>
      if bool_decide (x ∈ module_names ++ builtin_names)
      then ret (VGlobal x)
      else raise (NameError x)
  end.

(** [v["key"]] for a value expected to be a saved fix. *)
Definition as_save (v : Value) : M RepoSave :=
  match v with
  | VSave r => ret r
  | _ => raise TypeError
  end.

(** Calling a looked-up global that has no definition in the module. *)
Definition call_global (v : Value) : M unit :=
  match v with
  | VGlobal _ => raise TypeError
  | _ => raise TypeError
  end.

(** Attribute lookup on a list object. *)
Definition list_methods : list string :=
  [ "append"; "clear"; "copy"; "count"; "extend"; "index"; "insert"; "pop";
    "remove"; "reverse"; "sort" ].

Definition list_getattr (attr : string) : M unit :=
  if bool_decide (attr ∈ list_methods) then ret tt
  else raise (AttributeError "list" attr).

(** *** Strings and files *)

(** [sep.join(l)] *)
Fixpoint join (sep : string) (l : list string) : string :=
  match l with
  | [] => ""
  | [x] => x
  | x :: l' => x +:+ sep +:+ join sep l'
  end.

(** [s.replace(' ', '_')] *)
Fixpoint replace_space (s : string) : string :=
  match s with
  | EmptyString => EmptyString
  | String c s' =>
      String (if Ascii.eqb c " "%char then "_"%char else c) (replace_space s')
  end.

(** The characters removed by [str.strip()], among the ASCII ones. *)
Definition is_space (c : ascii) : bool :=
  let n := nat_of_ascii c in
  bool_decide (n = 32 ∨ (9 ≤ n ∧ n ≤ 13) ∨ (28 ≤ n ∧ n ≤ 31)).

Fixpoint lstrip (s : string) : string :=
  match s with
  | EmptyString => EmptyString
  | String c s' => if is_space c then lstrip s' else s
  end.

Fixpoint rstrip (s : string) : string :=
  match s with
  | EmptyString => EmptyString
  | String c s' =>
      match rstrip s' with
      | EmptyString => if is_space c then EmptyString else String c EmptyString
      | r => String c r
      end
  end.

Definition strip (s : string) : string := rstrip (lstrip s).

(** [fobj.readline()]: the text up to and including the first line feed, and
    what remains to be read. *)
Fixpoint readline (s : string) : string * string :=
  match s with
  | EmptyString => (EmptyString, EmptyString)
  | String c s' =>
      if Ascii.eqb c "010"%char then (String c EmptyString, s')
      else let '(l, r) := readline s' in (String c l, r)
  end.

(** The first line of a text, without its line feed. *)
Fixpoint first_line (s : string) : string :=
  match s with
  | EmptyString => EmptyString
  | String c s' =>
      if Ascii.eqb c "010"%char then EmptyString else String c (first_line s')
  end.

(** [str(Path(d) / name)], for a directory written without a trailing
    slash. *)
Definition path_join (d name : string) : string := d +:+ "/" +:+ name.

(** [with io.open(path, "w") as fobj: print(text, file=fobj)]; the directory
    is taken to exist. *)
Definition write_print (path text : string) : M unit :=
  fun w => (Ok tt, set_files (<[path := text +:+ nl]> (files w)) w).

(** [io.open(path, "r")] and reading the whole text. *)
Definition read_text (path : string) : M string :=
  fun w => match files w !! path with
           | Some t => (Ok t, w)
           | None => (Err (FileNotFoundError path), w)
           end.

(** [Path.is_file] *)
Definition is_file (path : string) : M bool :=
  fun w => (Ok (bool_decide (is_Some (files w !! path))), w).

(** [get_json_value(key, default)] and [set_json_value(key, value)] of
    [meticulous._storage]. *)
Definition get_json_value (key : string) (dflt : list RepoSave)
    : M (list RepoSave) :=
  fun w => (Ok (default dflt (storage w !! key)), w).

Definition set_json_value (key : string) (value : list RepoSave) : M unit :=
  fun w => (Ok tt, set_storage (<[key := value]> (storage w)) w).

(** *** The external collaborators

    What the version-control binary, the hosting API, the template detection
    of [meticulous._summary] and the operator answer is left open: each is a
    function of the calls made so far and of the arguments.  [None] is the
    failure of the call: [ProcessExecutionError] for git, [GithubException]
    for the API. *)
Section Handlers.

Variable git_out : list Call -> string -> list string -> option string.
Variable user_login_out : list Call -> option string.
Variable create_pr_out :
  list Call -> string -> string -> string -> string -> string -> option PullRequest.
Variable display_and_check_files : string -> bool.
Variable get_confirmation : string -> bool.

(** [git(args)] run inside [with local.cwd(cwd)] *)
Definition git (cwd : string) (args : list string) : M string :=
  fun w =>
    let w' := set_calls (calls w ++ [CallGit cwd args]) w in
    match git_out (calls w) cwd args with
    | Some out => (Ok out, w')
    | None => (Err ProcessExecutionError, w')
    end.

(** [get_api().get_user().login] *)
Definition get_user_login : M string :=
  fun w =>
    let w' := set_calls (calls w ++ [CallGetUser]) w in
    match user_login_out (calls w) with
    | Some login => (Ok login, w')
    | None => (Err GithubException, w')
    end.

(** [create_pr] of [meticulous._github] *)
Definition create_pr (repo title body from_branch to_branch : string)
    : M PullRequest :=
  fun w =>
    let w' :=
      set_calls (calls w ++ [CallCreatePr repo title body from_branch to_branch]) w in
    match create_pr_out (calls w) repo title body from_branch to_branch with
    | Some pr => (Ok pr, w')
    | None => (Err GithubException, w')
    end.

(** [context.controller.add(task)] *)
Definition controller_add (t : Task) : M unit :=
  fun w => (Ok tt, set_tasks (tasks w ++ [t]) w).

(** [context.interaction.send(message)] *)
Definition interaction_send (message : string) : M unit :=
  fun w => (Ok tt, set_sent (sent w ++ [message]) w).

(** *** The functions of the module *)

Definition get_note (kind : string) (pr_url : option string) : M string :=
  let header :=
    "Semi-automated " +:+ kind +:+ " generated by" +:+ nl +:+
    "https://github.com/timgates42/meticulous" +:+
    "/blob/master/docs/NOTE.md" in
  match pr_url with
  | None => mret header
  | Some url =>
      user_org ← get_user_login;
      mret (header +:+ nl +:+ nl +:+
        "To avoid wasting CI processing resources a branch with the fix has been" +:+ nl +:+
        "prepared but a pull request has not yet been created. A pull request fixing" +:+ nl +:+
        "the issue can be prepared from the link below, feel free to create it or" +:+ nl +:+
        "request @" +:+ user_org +:+ " create the PR." +:+ nl +:+ nl +:+
        url +:+ nl +:+ nl +:+
        "Thanks." +:+ nl)
  end.

Definition check_if_plain_pr (reposave : RepoSave) : bool :=
  let repopath := save_repodir reposave in
  let suggest_issue := false in
  let suggest_issue :=
    if display_and_check_files (path_join (path_join repopath ".github") "ISSUE_TEMPLATE")
    then true else suggest_issue in
  let suggest_issue :=
    if display_and_check_files
         (path_join (path_join repopath ".github") "pull_request_template.md")
    then true else suggest_issue in
  let suggest_issue :=
    if display_and_check_files (path_join repopath "CONTRIBUTING.md")
    then true else suggest_issue in
  if negb suggest_issue then true else false.

(** The handler of the [submit] task; [taskjson] is [context.taskjson]. *)
Definition submit (taskjson : Task) : M unit :=
  let reponame := task_reponame taskjson in
  orig_repository_saves_multi ← get_json_value MULTI_SAVE_KEY [];
  let repository_saves_multi :=
    filter (λ reposave, save_reponame reposave = reponame)
           orig_repository_saves_multi in
  submit_plain ←
    match repository_saves_multi with
    | [reposave] =>
        if negb ALWAYS_PLAIN_PR then
          let suggest_plain := check_if_plain_pr reposave in
          let add_word := save_add_word reposave in
          let del_word := save_del_word reposave in
          let files := join ", " (save_file_paths reposave) in
          interaction_send
            ("Fix in " +:+ reponame +:+ ": " +:+ del_word +:+ " -> " +:+
             add_word +:+ " over " +:+ files);;
          if suggest_plain
          then mret (get_confirmation "Analysis suggests plain pr, agree?")
          else mret (get_confirmation "Complex repo submit plain pr anyway?")
        else mret true
    | _ => mret false
    end;
  controller_add
    {| name := if ALWAYS_ISSUE_AND_BRANCH then "issue_and_branch"
               else if (submit_plain : bool) then "plain_pr" else "full_pr";
       interactive := false;
       priority := None;
       task_reponame := reponame;
       repository_saves_multi := Some repository_saves_multi |};;
  set_json_value MULTI_SAVE_KEY [].

Definition add_cleanup (reponame : string) : M unit :=
  controller_add
    {| name := "cleanup"; interactive := true; priority := Some 20%Z;
       task_reponame := reponame; repository_saves_multi := None |}.

(** The text that [make_a_commit] prints to [__commit__.txt]. *)
Definition commit_text (del_word add_word files : string) : string :=
  "docs: fix simple typo, " +:+ del_word +:+ " -> " +:+ add_word +:+ nl +:+
  nl +:+
  "There is a small typo in " +:+ files +:+ "." +:+ nl +:+
  nl +:+
  "Should read `" +:+ add_word +:+ "` rather than `" +:+ del_word +:+ "`." +:+ nl.

Definition make_a_commit (reponame : string) (reposave : RepoSave)
    (is_full : bool) : M unit :=
  let add_word := save_add_word reposave in
  let del_word := save_del_word reposave in
  let file_paths := save_file_paths reposave in
  let repodir := save_repodir reposave in
  let files := join ", " file_paths in
  let commit_path := path_join repodir "__commit__.txt" in
  write_print commit_path (commit_text del_word add_word files).

Definition make_a_commit_multi (reponame : string) (reposaves : list RepoSave)
    (is_full : bool) : M unit :=
  match reposaves with
  | [] => mret tt
  | [reposave0] => make_a_commit reponame reposave0 is_full
  | _ =>
      (* the order of [list(set(...))] is not fixed by Python *)
      let file_paths := remove_dups (concat (save_file_paths <$> reposaves)) in
      list_getattr "sorted";;                       (* [file_paths.sorted()] *)
      let scope :=
        [ ("reponame", VStr reponame); ("reposaves", VSaves reposaves);
          ("is_full", VBool is_full); ("file_paths", VStrs file_paths) ] in
      reposave ← load_name scope "reposave" ≫= as_save;
      let add_word := save_add_word reposave in
      let del_word := save_del_word reposave in
      let file_paths := save_file_paths reposave in
      let repodir := save_repodir reposave in
      let files := join nl ((λ file_path, "- " +:+ file_path) <$> file_paths) in
      lines ←
        mapM (λ reposave : RepoSave,
                repo_save ← load_name (("reposave", VSave reposave) :: scope)
                                      "repo_save" ≫= as_save;
                mret ("- Should read `" +:+ save_add_word repo_save +:+ "`" +:+
                      " rather than `" +:+ save_del_word repo_save +:+ "`."))
             reposaves;
      let commit_path := path_join repodir "__commit__.txt" in
      write_print commit_path
        ("docs: Fix a few typos" +:+ nl +:+
         nl +:+
         "There are small typos in:" +:+ nl +:+
         files +:+ nl +:+
         nl +:+
         "Fixes:" +:+ nl +:+
         join nl lines +:+ nl)
  end.

Definition load_commit_like_file (path : string) : M (string * string) :=
  text ← read_text path;
  let '(line1, rest1) := readline text in
  let title := strip line1 in
  let '(line2, rest2) := readline rest1 in
  let blankline := strip line2 in
  if bool_decide (blankline ≠ "")
  then raise (PyException ("Needs to be a blank second line for " +:+ path +:+ "."))
  else mret (title, rest2).

Definition push_commit_multi (repodir branch_name : string) : M string :=
  out ← git repodir ["symbolic-ref"; "--short"; "HEAD"];
  let to_branch := strip out in
  git repodir ["commit"; "-F"; "__commit__.txt"];;
  git repodir ["push"; "origin"; to_branch +:+ ":" +:+ branch_name];;
  mret to_branch.

Definition non_interactive_prepare_commit_multi (reposaves : list RepoSave)
    : M (string * string * string * string) :=
  match reposaves with
  | [] => raise (ValueError "No fixes to prepare")
  | reposave :: _ =>
      if existsb (λ check,
                    bool_decide (save_repodir reposave ≠ save_repodir check))
                 reposaves
      then raise (ValueError "Mismatch in repositories preparing commit")
      else
        let repodir := save_repodir reposave in
        let commit_path := path_join repodir "__commit__.txt" in
        '(title, body) ← load_commit_like_file commit_path;
        let branch_name :=
          if bool_decide (length reposaves = 1)
          then "bugfix_typo_" +:+ replace_space (save_add_word reposave)
          else "bugfix_typos" in
        to_branch ← push_commit_multi repodir branch_name;
        mret (title, body, branch_name, to_branch)
  end.

Definition non_interactive_submit_commit_multi (reponame : string)
    (reposaves : list RepoSave) : M string :=
  try_except
    ('(title, body, from_branch, to_branch) ←
        non_interactive_prepare_commit_multi reposaves;
     note ← get_note "pull request" None;
     let body := body +:+ nl +:+ note in
     pullreq ← create_pr reponame title body from_branch to_branch;
     mret ("Created PR #" +:+ pretty (number pullreq) +:+ " view at " +:+
           html_url pullreq))
    (λ e,
       match e with
       | ValueError _ => Some (mret ("Failed to process " +:+ reponame +:+ "."))
       | ProcessExecutionError =>
           Some (mret ("Failed to commit for " +:+ reponame +:+ "."))
       | GithubException =>
           Some (mret ("Failed to create pr for " +:+ reponame +:+ "."))
       | _ => None
       end).

Definition amend_commit (reposave : RepoSave) (from_branch to_branch : string)
    : M unit :=
  let repodir := save_repodir reposave in
  git repodir ["commit"; "-F"; "__commit__.txt"; "--amend"];;
  git repodir ["push"; "origin"; "-f"; to_branch +:+ ":" +:+ from_branch];;
  mret tt.

Definition plain_pr_for (reponame : string) (repository_saves_multi : list RepoSave)
    : M unit :=
  make_a_commit_multi reponame repository_saves_multi false;;
  non_interactive_submit_commit_multi reponame repository_saves_multi;;
  mret tt.

Definition full_pr_for (reponame : string) (repository_saves_multi : list RepoSave)
    : M unit :=
  let scope :=
    [ ("reponame", VStr reponame);
      ("repository_saves_multi", VSaves repository_saves_multi) ] in
  load_name scope "make_issue_multi" ≫= call_global;;
  load_name scope "submit_issue_multi" ≫= call_global;;
  non_interactive_submit_commit_multi reponame repository_saves_multi;;
  mret tt.

Definition issue_and_branch_for (reponame : string)
    (repository_saves_multi : list RepoSave) : M unit :=
  let no_issues := "__no_issues__.txt" in
  let scope :=
    [ ("reponame", VStr reponame);
      ("repository_saves_multi", VSaves repository_saves_multi);
      ("no_issues", VStr no_issues) ] in
  reposave ← load_name scope "reposave" ≫= as_save;   (* [reposave["repodir"]] *)
  let repodir := save_repodir reposave in
  let no_issues_path := path_join repodir no_issues in
  marker ← is_file no_issues_path;
  if (marker : bool) then plain_pr_for reponame repository_saves_multi
  else
    make_a_commit_multi reponame repository_saves_multi false;;
    '(_, _, from_branch, to_branch) ←
       non_interactive_prepare_commit_multi repository_saves_multi;
    user_org ← get_user_login;
    let pr_url :=
      "https://github.com/" +:+ user_org +:+ "/" +:+ reponame +:+
      "/pull/new/" +:+ from_branch in
    load_name (("pr_url", VStr pr_url) :: scope) "make_issue_multi" ≫= call_global;;
    load_name (("pr_url", VStr pr_url) :: scope) "submit_issue_multi" ≫= call_global;;
    reposave ← load_name (("pr_url", VStr pr_url) :: scope) "reposave" ≫= as_save;
    amend_commit reposave from_branch to_branch.

(** [context.taskjson["repository_saves_multi"]] *)
Definition taskjson_saves (taskjson : Task) : M (list RepoSave) :=
  match repository_saves_multi taskjson with
  | Some l => mret l
  | None => raise (KeyError "repository_saves_multi")
  end.

(** The handlers of the three terminal tasks. *)
Definition plain_pr (taskjson : Task) : M unit :=
  let reponame := task_reponame taskjson in
  repository_saves_multi ← taskjson_saves taskjson;
  plain_pr_for reponame repository_saves_multi;;
  add_cleanup reponame.

Definition full_pr (taskjson : Task) : M unit :=
  let reponame := task_reponame taskjson in
  repository_saves_multi ← taskjson_saves taskjson;
  full_pr_for reponame repository_saves_multi;;
  add_cleanup reponame.

Definition issue_and_branch (taskjson : Task) : M unit :=
  let reponame := task_reponame taskjson in
  repository_saves_multi ← taskjson_saves taskjson;
  issue_and_branch_for reponame repository_saves_multi;;
  add_cleanup reponame.

End Handlers.

(** *** Vocabulary of the properties *)

(** The saved fixes that the store holds for one repository. *)
Definition stored_for (repo : string) (w : World) : list RepoSave :=
  filter (λ reposave, save_reponame reposave = repo)
         (default [] (storage w !! MULTI_SAVE_KEY)).

(** A batch that is empty or whose records disagree on [repodir]. *)
Definition invalid_batch (reposaves : list RepoSave) : Prop :=
  reposaves = [] ∨
  ∃ r1 r2, r1 ∈ reposaves ∧ r2 ∈ reposaves ∧ save_repodir r1 ≠ save_repodir r2.

(** The task that [submit] adds for a batch, and the task of [add_cleanup]. *)
Definition terminal_task (repo : string) (batch : list RepoSave) : Task :=
  {| name := "issue_and_branch"; interactive := false; priority := None;
     task_reponame := repo; repository_saves_multi := Some batch |}.

Definition cleanup_task (repo : string) : Task :=
  {| name := "cleanup"; interactive := true; priority := Some 20%Z;
     task_reponame := repo; repository_saves_multi := None |}.

Fixpoint has_newline (s : string) : bool :=
  match s with
  | EmptyString => false
  | String c s' => Ascii.eqb c "010"%char || has_newline s'
  end.

(** [call_failed ... before c]: the external call [c], made after the calls
    [before], fails. *)
Definition call_failed
    (git_out : list Call -> string -> list string -> option string)
    (user_login_out : list Call -> option string)
    (create_pr_out :
       list Call -> string -> string -> string -> string -> string ->
       option PullRequest)
    (before : list Call) (c : Call) : bool :=
  match c with
  | CallGit cwd args => bool_decide (git_out before cwd args = None)
  | CallGetUser => bool_decide (user_login_out before = None)
  | CallCreatePr repo title body from_branch to_branch =>
      bool_decide (create_pr_out before repo title body from_branch to_branch = None)
  end.

(** The status string that [non_interactive_submit_commit_multi] returns
    when the external call [c] fails. *)
Definition failure_status (repo : string) (c : Call) : string :=
  match c with
  | CallGit _ _ => "Failed to commit for " +:+ repo +:+ "."
  | CallGetUser | CallCreatePr _ _ _ _ _ =>
      "Failed to create pr for " +:+ repo +:+ "."
  end.

(** *** Sample data *)

Definition fix_receive : RepoSave :=
  mkRepoSave "R" "/work/R" "receive" "recieve" ["a.md"].

Definition fix_teh : RepoSave :=
  mkRepoSave "R" "/work/R" "the" "teh" ["README.md"].

Definition fix_wierd : RepoSave :=
  mkRepoSave "R" "/work/R" "weird" "wierd" ["docs/x.md"].

Definition fix_elsewhere : RepoSave :=
  mkRepoSave "R2" "/work/R2" "weird" "wierd" ["docs/x.md"].

Definition empty_world : World := mkWorld ∅ ∅ [] [] [].

(** The store holds one fix for [R] and one for [R2]. *)
Definition world_two_repos : World :=
  mkWorld ∅ {[ MULTI_SAVE_KEY := [fix_receive; fix_elsewhere] ]} [] [] [].

Definition submit_task (repo : string) : Task :=
  {| name := "submit"; interactive := true; priority := None;
     task_reponame := repo; repository_saves_multi := None |}.

Definition plain_pr_task (repo : string) (batch : list RepoSave) : Task :=
  {| name := "plain_pr"; interactive := false; priority := None;
     task_reponame := repo; repository_saves_multi := Some batch |}.

(** Collaborators: git that fails at every command, an API that works. *)
Definition git_fails : list Call -> string -> list string -> option string :=
  λ _ _ _, None.

Definition login_ok : list Call -> option string := λ _, Some "operator".

Definition create_pr_ok :
    list Call -> string -> string -> string -> string -> string ->
    option PullRequest :=
  λ _ repo _ _ _ _,
    Some (mkPullRequest 7%N ("https://github.com/owner/" +:+ repo +:+ "/pull/7")).

Definition no_templates : string -> bool := λ _, false.
Definition operator_agrees : string -> bool := λ _, true.

End Submit.

(** ** Part III: the rest of [_submit.py] *)

Module SubmitRest.
Import Submit.

(** *** Diff parsing: [get_typo] *)

(** [s.startswith(p)] *)
Fixpoint startswith (s p : string) : bool :=
  match p with
  | EmptyString => true
  | String c p' =>
      match s with
      | EmptyString => false
      | String d s' => Ascii.eqb c d && startswith s' p'
      end
  end.

(** [s[n:]] *)
Fixpoint drop_chars (n : nat) (s : string) : string :=
  match n, s with
  | O, _ => s
  | S n', String _ s' => drop_chars n' s'
  | S _, EmptyString => EmptyString
  end.

(** The line boundaries of [str.splitlines], among the ASCII characters:
    line feed, vertical tab, form feed, carriage return, and the file, group
    and record separators. *)
Definition is_linebreak (c : ascii) : bool :=
  let n := nat_of_ascii c in
  bool_decide ((10 ≤ n ∧ n ≤ 13) ∨ (28 ≤ n ∧ n ≤ 30)).

(** [s.splitlines()]: a carriage return followed by a line feed is one
    boundary; a final boundary opens no empty last line. *)
Fixpoint splitlines (s : string) : list string :=
  match s with
  | EmptyString => []
  | String c s' =>
      if Ascii.eqb c "013"%char then
        match s' with
        | String d s'' =>
            if Ascii.eqb d "010"%char then EmptyString :: splitlines s''
            else EmptyString :: splitlines s'
        | EmptyString => [EmptyString]
        end
      else if is_linebreak c then EmptyString :: splitlines s'
      else
        match splitlines s' with
        | [] => [String c EmptyString]
        | line :: lines => String c line :: lines
        end
  end.

(** The class [[a-zA-Z]]. *)
Definition is_alpha (c : ascii) : bool :=
  let n := nat_of_ascii c in
  bool_decide ((65 ≤ n ∧ n ≤ 90) ∨ (97 ≤ n ∧ n ≤ 122)).

(** [re.findall("[a-zA-Z]+", s)]: the maximal runs of letters, from left to
    right. *)
Fixpoint findall_alpha (s : string) : list string :=
  match s with
  | EmptyString => []
  | String c s' =>
      if is_alpha c then
        match s' with
        | EmptyString => [String c EmptyString]
        | String d _ =>
            if is_alpha d then
              match findall_alpha s' with
              | word :: words => String c word :: words
              | [] => [String c EmptyString]
              end
            else String c EmptyString :: findall_alpha s'
        end
      else findall_alpha s'
  end.

(** The first loop of [get_typo]: the paths of the [--- a/] header lines. *)
Fixpoint header_paths (lines : list string) : list string :=
  match lines with
  | [] => []
  | line :: lines' =>
      if startswith line "--- a/"
      then drop_chars 6 line :: header_paths lines'
      else header_paths lines'
  end.

(** The second loop of [get_typo]: the removed and the added lines, without
    their first character. *)
Fixpoint changed_lines (lines : list string) : list string * list string :=
  match lines with
  | [] => ([], [])
  | line :: lines' =>
      let '(del_lines, add_lines) := changed_lines lines' in
      if startswith line "-" && negb (startswith line "--- ")
      then (drop_chars 1 line :: del_lines, add_lines)
      else if startswith line "+" && negb (startswith line "+++ ")
      then (del_lines, drop_chars 1 line :: add_lines)
      else (del_lines, add_lines)
  end.

(** The last loop of [get_typo]: the first pair of [zip(del_words, add_words)]
    whose two words differ. *)
Fixpoint first_difference (del_words add_words : list string)
    : option (string * string) :=
  match del_words, add_words with
  | del_word :: del_words', add_word :: add_words' =>
      if bool_decide (del_word ≠ add_word) then Some (del_word, add_word)
      else first_difference del_words' add_words'
  | _, _ => None
  end.

(** Both failures of [get_typo] raise [ProcessingFailed]; they differ by the
    message printed before. *)
Inductive TypoFailure : Type :=
| CouldNotReadDiff
| CouldNotLocateTypo.

(** [get_typo], from the text that [git diff --staged] printed. *)
Definition get_typo (output : string)
    : TypoFailure + (string * string * list string) :=
  let file_paths := header_paths (splitlines output) in
  let '(del_lines, add_lines) := changed_lines (splitlines output) in
  match del_lines, add_lines with
  | del_line :: _, add_line :: _ =>
      let del_words := findall_alpha del_line in
      let add_words := findall_alpha add_line in
      match first_difference del_words add_words with
      | Some (del_word, add_word) => inr (del_word, add_word, file_paths)
      | None => inl CouldNotLocateTypo
      end
  | _, _ => inl CouldNotReadDiff
  end.

(** Every character of [s] is a letter. *)
Fixpoint all_alpha (s : string) : bool :=
  match s with
  | EmptyString => true
  | String c s' => is_alpha c && all_alpha s'
  end.

(** A staged diff of one file with one changed line. *)
Definition sample_diff : string :=
  "diff --git a/a.md b/a.md" +:+ nl +:+
  "index 1111111..2222222 100644" +:+ nl +:+
  "--- a/a.md" +:+ nl +:+
  "+++ b/a.md" +:+ nl +:+
  "@@ -1 +1 @@" +:+ nl +:+
  "-You will recieve it." +:+ nl +:+
  "+You will receive it." +:+ nl.

(** Worlds holding one commit-like file at [/work/R/__commit__.txt]. *)
Definition world_with_commit (text : string) : World :=
  mkWorld {[ "/work/R/__commit__.txt" := text ]} ∅ [] [] [].



(** *** Dicts with string keys

    A Python dict keeps its keys in the order of their first insertion; an
    assignment to a key that is present replaces the value in place. *)
Fixpoint dict_get {V} (k : string) (d : list (string * V)) : option V :=
  match d with
  | [] => None
  | (k', v) :: d' => if String.eqb k k' then Some v else dict_get k d'
  end.

Fixpoint dict_set {V} (k : string) (v : V) (d : list (string * V))
    : list (string * V) :=
  match d with
  | [] => [(k, v)]
  | (k', v') :: d' =>
      if String.eqb k k' then (k, v) :: d' else (k', v') :: dict_set k v d'
  end.

(** *** The menu of the interactive preparation: [get_pr_or_issue_choices] *)

(** The functions that the menu offers, and the context stored with each. *)
Inductive Handler : Type :=
| show_path_handler
| make_a_commit_handler
| make_issue_handler
| submit_issue_handler
| submit_commit_handler.

Inductive MenuContext : Type :=
| CtxPath (path : string)
| CtxBool (b : bool)
| CtxNone.

Section Menu.

(** [Path.exists], for files and directories of the working copy. *)
Variable path_exists : string -> bool.

(** The loop over [paths]: the lines printed and the entries added. *)
Fixpoint show_choices (reponame repodirpath : string) (paths : list string)
    (choices : list (string * (Handler * MenuContext)))
    : list string * list (string * (Handler * MenuContext)) :=
  match paths with
  | [] => ([], choices)
  | path :: paths' =>
      let has_path := path_exists (path_join repodirpath path) in
      let line :=
        reponame +:+ " " +:+ (if has_path then "HAS" else "does not have") +:+
        " " +:+ path in
      let choices :=
        if has_path
        then dict_set ("show " +:+ path) (show_path_handler, CtxPath path) choices
        else choices in
      let '(printed, choices) := show_choices reponame repodirpath paths' choices in
      (line :: printed, choices)
  end.

(** Returns the lines printed and the dict of choices. *)
Definition get_pr_or_issue_choices (reponame repodirpath : string)
    : list string * list (string * (Handler * MenuContext)) :=
  let issue_template := path_join ".github" "ISSUE_TEMPLATE" in
  let pr_template := path_join ".github" "pull_request_template.md" in
  let contrib_guide := "CONTRIBUTING.md" in
  let issue := "__issue__.txt" in
  let commit := "__commit__.txt" in
  let prpath := "__pr__.txt" in
  let no_issues := "__no_issues__.txt" in
  let choices := [] in
  let paths :=
    [ issue_template; pr_template; contrib_guide; prpath; issue; commit;
      no_issues ] in
  let '(printed, choices) := show_choices reponame repodirpath paths choices in
  let choices := dict_set "make a commit" (make_a_commit_handler, CtxBool false) choices in
  let choices := dict_set "make a full issue" (make_issue_handler, CtxBool true) choices in
  let choices := dict_set "make a short issue" (make_issue_handler, CtxBool false) choices in
  let has_issue := path_exists (path_join repodirpath issue) in
  let choices :=
    if has_issue then dict_set "submit issue" (submit_issue_handler, CtxNone) choices
    else choices in
  let has_commit := path_exists (path_join repodirpath commit) in
  let choices :=
    if has_commit
    then dict_set "submit issue" (submit_issue_handler, CtxNone)
           (dict_set "submit commit" (submit_commit_handler, CtxNone) choices)
    else choices in
  (printed, choices).

End Menu.

(** *** Issue files: [make_issue], [submit_issue] *)



Section Issues.

Variable user_login_out : list Call -> option string.

(** [issue_via_api(reponame, title, body)]: the hosting API creates the issue
    and returns its number; what else it does is left open. *)
Variable issue_via_api : string -> string -> string -> M N.


Definition submit_issue (reponame : string) (reposave : RepoSave)
    (ctxt : MenuContext) : M unit :=
  let repodir := save_repodir reposave in
  let add_word := save_add_word reposave in
  let del_word := save_del_word reposave in
  let file_paths := save_file_paths reposave in
  let files := join ", " file_paths in
  let issue_path := path_join repodir "__issue__.txt" in
  '(title, body) ← load_commit_like_file issue_path;
  issue_num ← issue_via_api reponame title body;
  let commit_path := path_join repodir "__commit__.txt" in
  write_print commit_path
    ("docs: fix simple typo, " +:+ del_word +:+ " -> " +:+ add_word +:+ nl +:+
     nl +:+
     "There is a small typo in " +:+ files +:+ "." +:+ nl +:+
     nl +:+
     "Closes #" +:+ pretty issue_num +:+ nl).

End Issues.

(** *** The handlers by task name: [submit_handlers] *)

Section Dispatch.

Variable git_out : list Call -> string -> list string -> option string.
Variable user_login_out : list Call -> option string.
Variable create_pr_out :
  list Call -> string -> string -> string -> string -> string -> option PullRequest.
Variable display_and_check_files : string -> bool.
Variable get_confirmation : string -> bool.

Definition submit_handlers : list (string * (Task -> M unit)) :=
  [ ("submit", submit display_and_check_files get_confirmation);
    ("issue_and_branch", issue_and_branch git_out user_login_out create_pr_out);
    ("plain_pr", plain_pr git_out user_login_out create_pr_out);
    ("full_pr", full_pr git_out user_login_out create_pr_out) ].

End Dispatch.

(** *** Vocabulary and sample data *)

(** [c in s] for a character. *)
Fixpoint contains (c : ascii) (s : string) : bool :=
  match s with
  | EmptyString => false
  | String d s' => Ascii.eqb c d || contains c s'
  end.

(** The three git commands of [push_commit_multi] and the two of
    [amend_commit]. *)
Definition symbolic_ref_call (repodir : string) : Call :=
  CallGit repodir ["symbolic-ref"; "--short"; "HEAD"].

Definition commit_call (repodir : string) : Call :=
  CallGit repodir ["commit"; "-F"; "__commit__.txt"].

Definition push_call (repodir to_branch branch_name : string) : Call :=
  CallGit repodir ["push"; "origin"; to_branch +:+ ":" +:+ branch_name].

Definition amend_call (repodir : string) : Call :=
  CallGit repodir ["commit"; "-F"; "__commit__.txt"; "--amend"].

Definition force_push_call (repodir from_branch to_branch : string) : Call :=
  CallGit repodir ["push"; "origin"; "-f"; to_branch +:+ ":" +:+ from_branch].


(** Collaborators: git that answers [main] to every command, an API that
    files every issue as number 12, a working copy that holds nothing but the
    commit file. *)
Definition git_ok : list Call -> string -> list string -> option string :=
  λ _ _ _, Some ("main" +:+ nl).

Definition issue_api_ok : string -> string -> string -> M N :=
  λ _ _ _, ret 12%N.

Definition only_commit_file : string -> bool :=
  λ path, String.eqb path "/work/R/__commit__.txt".

End SubmitRest.

(** ** Part IV: vocabulary for the threads of [_webstate.py] *)

Module WebStateRest.
Import WebState.

(** The messages of the [send] actions of a schedule. *)
Definition sent_messages (ls : list Label) : list string :=
  omap (λ l, match l with LSend m => Some m | _ => None end) ls.


(** The worker is at the loop test of [run] after [stop] cleared the flag. *)
Definition stopped_at_loop_test : Config :=
  mkConfig (set_thread (Some tt) init) WLoopTest SJoining.

(** What holds while and after [stop] runs. *)
Definition stop_inv (c : Config) : Prop :=
  match stopper c with
  | SIdle => True
  | SJoining => worker c = WExited → alive (st c) = false
  | SReturned =>
      worker c = WExited ∧ alive (st c) = false
      ∧ thread (st c) = None ∧ started_at (st c) = None
  end.


(** The flag is cleared and the worker is at, or past, its last loop test. *)
Definition winding_down (c : Config) : Prop :=
  alive (st c) = false ∧ (worker c = WLoopTest ∨ worker c = WExited).

End WebStateRest.

(** * Properties *)

(** ** The interaction channel *)

Section Channel.
Import WebState.

Implicit Types (c : Config) (l : Label) (ls : list Label).

Lemma run_schedule_cons l ls c :
  run_schedule (l :: ls) c = run_schedule ls (fire l c).
Proof. reflexivity. Qed.

(** Solves the goals that remain after a case analysis on one action. *)
Local Ltac step_cases c l :=
  destruct c as [[? ? ? [?|] [?|] ?] [| | | | | ?|] [| |]];
  destruct l as [?| |?|?| | | | |[?|]| |];
  cbn in *; try done; repeat case_match; cbn in *; simplify_eq; try done.

(** A worker parked in [get_await] with an empty answer slot stays parked,
    whatever the other threads do, until a non-null answer is delivered. *)
Lemma fire_parked c l :
  worker c = WWaiting → response_val (st c) = None → delivers l = false →
  worker (fire l c) = WWaiting ∧ response_val (st (fire l c)) = None
  ∧ (stopper c ≠ SReturned → stopper (fire l c) ≠ SReturned)
  ∧ (stopper c = SJoining → alive (st c) = false →
       stopper (fire l c) = SJoining ∧ alive (st (fire l c)) = false).
Proof. intros Hw Hr Hl. step_cases c l; intuition congruence. Qed.

Lemma run_parked ls : ∀ c,
  worker c = WWaiting → response_val (st c) = None →
  Forall (λ l, delivers l = false) ls →
  worker (run_schedule ls c) = WWaiting
  ∧ response_val (st (run_schedule ls c)) = None
  ∧ (stopper c ≠ SReturned → stopper (run_schedule ls c) ≠ SReturned)
  ∧ (stopper c = SJoining → alive (st c) = false →
       stopper (run_schedule ls c) = SJoining
       ∧ alive (st (run_schedule ls c)) = false).
Proof.
  induction ls as [|l ls IH]; intros c Hw Hr Hq.
  - cbn. auto.
  - inversion_clear Hq as [|? ? Hl Hls].
    destruct (fire_parked c l Hw Hr Hl) as (Hw' & Hr' & Hs' & Hj').
    rewrite run_schedule_cons.
    destruct (IH (fire l c) Hw' Hr' Hls) as (Hw2 & Hr2 & Hs2 & Hj2).
    split_and!; [done | done | auto |].
    intros Hj Ha. destruct (Hj' Hj Ha). auto.
Qed.

Lemma fire_slots_ok c l : slots_ok c → slots_ok (fire l c).
Proof. unfold slots_ok. intros H. step_cases c l; intuition congruence. Qed.

Lemma run_slots_ok ls : ∀ c, slots_ok c → slots_ok (run_schedule ls c).
Proof.
  induction ls as [|l ls IH]; intros c H; [done|].
  rewrite run_schedule_cons. by apply IH, fire_slots_ok.
Qed.

Lemma outside_slots_ok c : outside_get_await (worker c) = true → slots_ok c.
Proof. unfold slots_ok. by destruct (worker c). Qed.

Lemma fire_answered v c l :
  is_ask l = false → answered v c → answered v (fire l c).
Proof.
  unfold answered. intros Hl (Hr & Hk & Hg).
  step_cases c l; split_and!; try done; intros; simplify_eq; eauto.
Qed.

Lemma run_answered v ls : ∀ c,
  Forall (λ l, is_ask l = false) ls → answered v c →
  answered v (run_schedule ls c).
Proof.
  induction ls as [|l ls IH]; intros c Hq H; [done|].
  inversion_clear Hq. rewrite run_schedule_cons. by apply IH, fire_answered.
Qed.

(** A worker parked with the question cleared and no answer stays parked. *)
Lemma run_unanswerable ls : ∀ c,
  worker c = WWaiting → response_val (st c) = None → await_key (st c) = None →
  Forall (λ l, is_ask l = false) ls →
  worker (run_schedule ls c) = WWaiting.
Proof.
  induction ls as [|l ls IH]; intros c Hw Hr Hk Hq; [done|].
  inversion_clear Hq as [|? ? Hl Hls]. rewrite run_schedule_cons.
  apply IH; [| | |done]; step_cases c l.
Qed.

(** A worker parked on an outstanding question returns, if it does, the value
    of the first [answer] call. *)
Lemma run_outstanding ls : ∀ c k r,
  worker c = WWaiting → response_val (st c) = None → await_key (st c) = Some k →
  Forall (λ l, is_ask l = false) ls →
  worker (run_schedule ls c) = WGot r →
  (∃ v, r = Some v ∧ first_answer ls = Some (Some v))
  ∧ await_key (st (run_schedule ls c)) = None.
Proof.
  induction ls as [|l ls IH]; intros c k r Hw Hr Hk Hq Hg.
  - cbn in Hg. congruence.
  - inversion_clear Hq as [|? ? Hl Hls]. rewrite run_schedule_cons in *.
    assert ((∃ v, l = LAnswer v) ∨ ¬ (∃ v, l = LAnswer v)) as [[[v|] ->]|Hn].
    { destruct l; eauto; right; intros [? ?]; discriminate. }
    + assert (answered v (fire (LAnswer (Some v)) c)) as Ha.
      { unfold answered. destruct c as [[] ? ?]; cbn in *; subst; cbn.
        split_and!; try done. }
      destruct (run_answered v ls _ Hls Ha) as (_ & Hk' & Hg').
      split; [|done]. exists v. split; [by apply Hg'|done].
    + exfalso.
      assert (worker (run_schedule ls (fire (LAnswer None) c)) = WWaiting) as Hp.
      { apply run_unanswerable; [| | |done];
          destruct c as [[] ? ?]; cbn in *; subst; by cbn. }
      congruence.
    + assert (first_answer (l :: ls) = first_answer ls) as ->.
      { destruct l; try done. destruct Hn. eauto. }
      apply (IH (fire l c) k r); [| | |done|done];
        step_cases c l; destruct Hn; eauto.
Qed.

(** Until [answer] is called, a parked worker keeps its question. *)
Lemma run_pending ls : ∀ c k,
  worker c = WWaiting → response_val (st c) = None → await_key (st c) = Some k →
  Forall (λ l, is_answer l = false) ls →
  worker (run_schedule ls c) = WWaiting
  ∧ response_val (st (run_schedule ls c)) = None
  ∧ await_key (st (run_schedule ls c)) = Some k.
Proof.
  induction ls as [|l ls IH]; intros c k Hw Hr Hk Hq; [done|].
  inversion_clear Hq as [|? ? Hl Hls]. rewrite run_schedule_cons.
  apply IH; [| | |done]; step_cases c l.
Qed.

Lemma run_schedule_app ls1 ls2 c :
  run_schedule (ls1 ++ ls2) c = run_schedule ls2 (run_schedule ls1 c).
Proof. apply fold_left_app. Qed.

Lemma fire_ask c key :
  worker c = WInTask →
  worker (fire (LAsk key) c) = WWaiting
  ∧ response_val (st (fire (LAsk key) c)) = None
  ∧ await_key (st (fire (LAsk key) c)) = Some key.
Proof. intros Hw. destruct c as [[] ? ?]; cbn in *; subst; by cbn. Qed.

(** [stop] returns only after the worker thread has exited: it joins. *)
Lemma fire_join_safe c l :
  (stopper c = SReturned → worker c = WExited) →
  stopper (fire l c) = SReturned → worker (fire l c) = WExited.
Proof. intros H. step_cases c l; intuition congruence. Qed.

Lemma stop_returns_after_exit ls : ∀ c,
  (stopper c = SReturned → worker c = WExited) →
  stopper (run_schedule ls c) = SReturned →
  worker (run_schedule ls c) = WExited.
Proof.
  induction ls as [|l ls IH]; intros c H; [done|].
  rewrite run_schedule_cons. apply IH, fire_join_safe, H.
Qed.

(** C1. What the code does when [stop()] is called while the worker is parked
    in [get_await] and no answer arrives: the loop of [get_await] tests
    [response_val] only, so at every later wake the worker goes back to
    waiting; the liveness flag stays cleared, the thread does not exit, and
    [stop] remains inside [join].  The worker does not leave the wait on the
    next wake, as the claim requires. *)
Theorem stop_during_get_await_never_unparks c ls :
  worker c = WWaiting → response_val (st c) = None → stopper c = SIdle →
  Forall (λ l, delivers l = false) ls →
  alive (st (run_schedule (LStop :: ls) c)) = false
  ∧ worker (run_schedule (LStop :: ls) c) = WWaiting
  ∧ stopper (run_schedule (LStop :: ls) c) = SJoining.
Proof.
  intros Hw Hr Hs Hq. rewrite run_schedule_cons.
  assert (worker (fire LStop c) = WWaiting ∧ response_val (st (fire LStop c)) = None
          ∧ stopper (fire LStop c) = SJoining ∧ alive (st (fire LStop c)) = false)
    as (Hw' & Hr' & Hs' & Ha').
  { destruct c as [[] ? ?]; cbn in *; subst; by cbn. }
  destruct (run_parked ls _ Hw' Hr' Hq) as (? & _ & _ & Hj).
  destruct (Hj Hs' Ha'). done.
Qed.

(** C2. A call of [get_await] clears the answer slot and stores the question
    before it waits; when an answer is delivered and the worker wakes, the
    call returns; and whenever the call returns, it returns the value of the
    first [answer] made after it began, with the question slot cleared.  The
    configuration [c] in which the call begins is arbitrary, so what an
    earlier call left in the slots is never returned. *)
Theorem get_await_returns_supplied_answer c key ls :
  worker c = WInTask → Forall (λ l, is_ask l = false) ls →
  (response_val (st (fire (LAsk key) c)) = None
   ∧ await_key (st (fire (LAsk key) c)) = Some key
   ∧ worker (fire (LAsk key) c) = WWaiting)
  ∧ (∀ r, worker (run_schedule (LAsk key :: ls) c) = WGot r →
       (∃ v, r = Some v ∧ first_answer ls = Some (Some v))
       ∧ await_key (st (run_schedule (LAsk key :: ls) c)) = None)
  ∧ (∀ v, Forall (λ l, is_answer l = false) ls →
       worker (run_schedule (LAsk key :: ls ++ [LAnswer (Some v); LWake; LReturn]) c)
         = WGot (Some v)
       ∧ await_key
           (st (run_schedule (LAsk key :: ls ++ [LAnswer (Some v); LWake; LReturn]) c))
         = None).
Proof.
  intros Hw Hq. destruct (fire_ask c key Hw) as (Hw' & Hr' & Hk').
  split_and!; try done.
  - intros r Hg. rewrite run_schedule_cons in *.
    by apply (run_outstanding ls _ key r).
  - intros v Hna. rewrite run_schedule_cons, run_schedule_app.
    destruct (run_pending ls _ key Hw' Hr' Hk' Hna) as (Hw2 & Hr2 & Hk2).
    destruct (run_schedule ls (fire (LAsk key) c)) as [[] ? ?].
    cbn in *; subst; by cbn.
Qed.

(** C10. A call of [get_await] never returns [None]: the loop is left only
    with a non-null value in the answer slot, and that value is still there
    when [return] reads it.  As long as no non-null value is delivered (null
    answers, timeouts and [stop] included) the worker stays parked. *)
Theorem get_await_never_returns_None c key ls :
  worker c = WInTask →
  (∀ r, worker (run_schedule (LAsk key :: ls) c) = WGot r → r ≠ None)
  ∧ (Forall (λ l, delivers l = false) ls →
       worker (run_schedule (LAsk key :: ls) c) = WWaiting).
Proof.
  intros Hw. split.
  - intros r Hg.
    assert (slots_ok (run_schedule (LAsk key :: ls) c)) as Hinv.
    { apply run_slots_ok, outside_slots_ok. by rewrite Hw. }
    unfold slots_ok in Hinv. by rewrite Hg in Hinv.
  - intros Hq. rewrite run_schedule_cons.
    destruct (fire_ask c key Hw) as (Hw' & Hr' & _).
    by destruct (run_parked ls _ Hw' Hr' Hq).
Qed.

End Channel.

(** ** The submission pipeline *)

Section Pipeline.
Import Submit.

Implicit Types (w : World) (reposave : RepoSave) (reposaves : list RepoSave).

(** Unfolds the monad of handlers. *)
Local Ltac unfold_M :=
  unfold mbind, M_bind, bind, mret, M_ret, ret, raise, try_except in *.

Lemma string_app_cons (x : ascii) (a b : string) :
  String x a +:+ b = String x (a +:+ b).
Proof. reflexivity. Qed.


Lemma string_app_assoc (a b c : string) : (a +:+ b) +:+ c = a +:+ b +:+ c.
Proof.
  induction a as [|x a IH]; [done|].
  rewrite !string_app_cons. by f_equal.
Qed.

Lemma string_app_nil_r (a : string) : a +:+ "" = a.
Proof.
  induction a as [|x a IH]; [done|].
  rewrite string_app_cons. by f_equal.
Qed.

Lemma first_line_app (a b : string) :
  has_newline a = false → first_line (a +:+ b) = a +:+ first_line b.
Proof.
  induction a as [|x a IH]; [done|].
  rewrite !string_app_cons. simpl.
  destruct (Ascii.eqb x "010"%char); simpl; [done|].
  intros H. by f_equal; apply IH.
Qed.

Lemma first_line_commit_text (del_word add_word files rest : string) :
  has_newline del_word = false → has_newline add_word = false →
  first_line (commit_text del_word add_word files +:+ rest)
  = "docs: fix simple typo, " +:+ del_word +:+ " -> " +:+ add_word.
Proof.
  intros Hd Ha. unfold commit_text.
  rewrite !string_app_assoc.
  rewrite (first_line_app "docs: fix simple typo, ") by done.
  rewrite (first_line_app del_word) by done.
  rewrite (first_line_app " -> ") by done.
  rewrite (first_line_app add_word) by done.
  unfold nl. rewrite string_app_cons. simpl first_line.
  by rewrite string_app_nil_r.
Qed.

(** C9. For a batch of one saved fix whose two words contain no line feed,
    [make_a_commit_multi] writes [__commit__.txt] in the working copy, and the
    first line of the message is
    [docs: fix simple typo, <del_word> -> <add_word>]. *)
Theorem single_fix_commit_first_line (reponame : string) reposave
    (is_full : bool) w :
  has_newline (save_del_word reposave) = false →
  has_newline (save_add_word reposave) = false →
  ∃ text w',
    make_a_commit_multi reponame [reposave] is_full w = (Ok tt, w')
    ∧ files w' !! path_join (save_repodir reposave) "__commit__.txt" = Some text
    ∧ first_line text
      = "docs: fix simple typo, " +:+ save_del_word reposave +:+ " -> " +:+
        save_add_word reposave.
Proof.
  intros Hd Ha. eexists _, _. split_and!.
  - reflexivity.
  - cbn. apply lookup_insert_eq.
  - by apply first_line_commit_text.
Qed.

(** C5. What the code does for a batch of two or more saved fixes:
    [make_a_commit_multi] stops at [file_paths.sorted()], a method that lists
    do not have, and raises [AttributeError]; no commit message is written,
    so nothing is aggregated over the batch. *)
Theorem multi_fix_commit_raises (reponame : string) (r1 r2 : RepoSave)
    reposaves (is_full : bool) w :
  make_a_commit_multi reponame (r1 :: r2 :: reposaves) is_full w
  = (Err (AttributeError "list" "sorted"), w).
Proof. reflexivity. Qed.

Section Collaborators.

Variable git_out : list Call -> string -> list string -> option string.
Variable user_login_out : list Call -> option string.
Variable create_pr_out :
  list Call -> string -> string -> string -> string -> string -> option PullRequest.
Variable display_and_check_files : string -> bool.
Variable get_confirmation : string -> bool.

(** C6. What the code does for every batch, valid or not, and whether or not
    the working copy holds [__no_issues__.txt]: [issue_and_branch_for] reads
    the name [reposave], which is bound neither in the function nor in the
    module, and raises [NameError] before it looks for the marker file;
    nothing is committed, pushed, filed or amended, and the handler adds no
    task. *)
Theorem issue_and_branch_raises_NameError (reponame : string) reposaves w :
  issue_and_branch_for git_out user_login_out create_pr_out reponame reposaves w
  = (Err (NameError "reposave"), w)
  ∧ issue_and_branch git_out user_login_out create_pr_out
      (terminal_task reponame reposaves) w
    = (Err (NameError "reposave"), w).
Proof. split; reflexivity. Qed.

Lemma submit_outcome (taskjson : Task) w :
  submit display_and_check_files get_confirmation taskjson w
  = (Ok tt,
     set_storage (<[MULTI_SAVE_KEY := []]> (storage w))
       (set_tasks
          (tasks w ++
           [terminal_task (task_reponame taskjson)
                          (stored_for (task_reponame taskjson) w)])
          w)).
Proof.
  unfold submit, stored_for, get_json_value. unfold_M. cbn.
  destruct (filter _ _) as [|r [|r' l]]; reflexivity.
Qed.

(** [submit] ends with [set_json_value(MULTI_SAVE_KEY, [])]: after it has
    run, the store holds the empty list, so it holds no saved fix for the
    submitted repository and none for any other repository. *)
Lemma submit_empties_store (taskjson : Task) w :
  ∃ w', submit display_and_check_files get_confirmation taskjson w = (Ok tt, w')
        ∧ storage w' !! MULTI_SAVE_KEY = Some []
        ∧ ∀ repo, stored_for repo w' = [].
Proof.
  eexists. split; [apply submit_outcome|]. split.
  - cbn. apply lookup_insert_eq.
  - intros repo. unfold stored_for. cbn. by rewrite lookup_insert_eq.
Qed.

Lemma prepare_rejects_invalid reposaves w :
  invalid_batch reposaves →
  ∃ msg, non_interactive_prepare_commit_multi git_out reposaves w
         = (Err (ValueError msg), w).
Proof.
  intros [->|(r1 & r2 & H1 & H2 & Hne)]; [by eexists|].
  destruct reposaves as [|r l]; [by apply elem_of_nil in H1|].
  unfold non_interactive_prepare_commit_multi.
  assert (existsb (λ check, bool_decide (save_repodir r ≠ save_repodir check))
                  (r :: l) = true) as ->; [|by eexists].
  apply existsb_exists.
  destruct (decide (save_repodir r = save_repodir r1)) as [Heq|Hd].
  - exists r2. split; [by apply list_elem_of_In|].
    apply bool_decide_eq_true. congruence.
  - exists r1. split; [by apply list_elem_of_In|].
    by apply bool_decide_eq_true.
Qed.

(** C4, amended. The policy step does not validate the batch: whatever the
    store holds, [submit] raises nothing and adds the terminal task
    [issue_and_branch] carrying the batch.  A batch that is empty or whose
    records disagree on the repository path is rejected later, by
    [non_interactive_prepare_commit_multi], which raises [ValueError] before
    it reads a file or runs a git command. *)
Theorem invalid_batch_rejected_at_prepare (taskjson : Task) reposaves w :
  invalid_batch reposaves →
  (∃ w', submit display_and_check_files get_confirmation taskjson w = (Ok tt, w')
         ∧ tasks w' = tasks w ++
             [terminal_task (task_reponame taskjson)
                            (stored_for (task_reponame taskjson) w)])
  ∧ (∃ msg, non_interactive_prepare_commit_multi git_out reposaves w
            = (Err (ValueError msg), w)).
Proof.
  intros Hinv. split; [|by apply prepare_rejects_invalid].
  eexists. split; [apply submit_outcome|done].
Qed.

Lemma submit_commit_outcome (reponame : string) reposaves w r w' :
  non_interactive_submit_commit_multi git_out user_login_out create_pr_out reponame reposaves w
  = (r, w') →
  files w' = files w ∧ storage w' = storage w ∧ tasks w' = tasks w
  ∧ sent w' = sent w
  ∧ ∃ new, calls w' = calls w ++ new
      ∧ (∀ e, r = Err e →
           e ≠ ProcessExecutionError ∧ e ≠ GithubException
           ∧ ∀ msg, e ≠ ValueError msg)
      ∧ (∀ pre c post, new = pre ++ c :: post →
           call_failed git_out user_login_out create_pr_out (calls w ++ pre) c = true →
           post = [] ∧ r = Ok (failure_status reponame c)).
Proof.
  destruct w as [fs sto ts ms cs].
  unfold non_interactive_submit_commit_multi, non_interactive_prepare_commit_multi,
    load_commit_like_file, push_commit_multi, get_note, read_text, git, create_pr.
  unfold_M. cbn.
  intros H.
  repeat (case_match; cbn in *; simplify_eq).
  all: rewrite <- ?app_assoc in *; cbn [app] in *.
  all: split_and!; try done.
  all: eexists; split_and!;
    [ try reflexivity; symmetry; apply app_nil_r
    | intros e He; by simplify_eq
    | intros pre c post Heq Hf ].
  all: destruct pre as [|? [|? [|? [|? [|? ?]]]]]; simplify_eq/=.
  all: rewrite ?app_nil_r in *;
    try (apply bool_decide_eq_true in Hf; congruence).
  all: try done.
Qed.

(** C7. [non_interactive_submit_commit_multi] never raises
    [ProcessExecutionError] or [GithubException]: when one of the external
    calls it makes (git commit, git push, pull-request creation) fails, the
    function returns a status string that names the repository, and the
    failed call is the last external call it makes, so nothing is retried. *)
Theorem submit_failures_become_status (reponame : string) reposaves w :
  ∃ r w' new,
    non_interactive_submit_commit_multi git_out user_login_out create_pr_out
      reponame reposaves w = (r, w')
    ∧ calls w' = calls w ++ new
    ∧ r ≠ Err ProcessExecutionError ∧ r ≠ Err GithubException
    ∧ ∀ pre c post, new = pre ++ c :: post →
        call_failed git_out user_login_out create_pr_out (calls w ++ pre) c = true →
        post = [] ∧ r = Ok (failure_status reponame c).
Proof.
  destruct (non_interactive_submit_commit_multi git_out user_login_out
              create_pr_out reponame reposaves w) as [r w'] eqn:E.
  destruct (submit_commit_outcome _ _ _ _ _ E)
    as (_ & _ & _ & _ & new & Hc & He & Hf).
  exists r, w', new. split_and!; try done.
  - intros ->. by destruct (He _ eq_refl) as (? & _).
  - intros ->. by destruct (He _ eq_refl) as (_ & ? & _).
Qed.

Lemma make_a_commit_multi_frame (reponame : string) reposaves (is_full : bool)
    w r w1 :
  make_a_commit_multi reponame reposaves is_full w = (r, w1) →
  tasks w1 = tasks w ∧ calls w1 = calls w
  ∧ ∀ e, r = Err e → e = AttributeError "list" "sorted" ∧ w1 = w.
Proof.
  destruct reposaves as [|r0 [|r1 l]]; intros H.
  - injection H as <- <-. split_and!; try done.
  - injection H as <- <-. split_and!; try done.
  - change (make_a_commit_multi reponame (r0 :: r1 :: l) is_full w)
      with (Err (A := unit) (AttributeError "list" "sorted"), w) in H.
    injection H as <- <-. split_and!; try done. intros e [= <-]. done.
Qed.

(** C8, amended. The handler of [plain_pr] adds the cleanup task whenever
    [plain_pr_for] returns without raising, and only then.  A failure of git
    or of the hosting API does not make it raise: when an external call made
    by the handler fails, the handler still returns normally, hence the
    cleanup task is added after a failed submission too.  The cleanup task is
    skipped only when another exception leaves the handler. *)
Theorem plain_pr_cleanup_after_return (taskjson : Task) w :
  ∃ r w' new,
    plain_pr git_out user_login_out create_pr_out taskjson w = (r, w')
    ∧ match r with
      | Ok _ => tasks w' = tasks w ++ [cleanup_task (task_reponame taskjson)]
      | Err e =>
          tasks w' = tasks w ∧ e ≠ ProcessExecutionError ∧ e ≠ GithubException
      end
    ∧ calls w' = calls w ++ new
    ∧ ∀ pre c post, new = pre ++ c :: post →
        call_failed git_out user_login_out create_pr_out (calls w ++ pre) c = true →
        r = Ok tt.
Proof.
  unfold plain_pr, plain_pr_for, taskjson_saves, add_cleanup, controller_add.
  destruct (repository_saves_multi taskjson) as [reposaves|]; unfold_M.
  2: { exists (Err (KeyError "repository_saves_multi")), w, [].
       split_and!; try done; [by rewrite app_nil_r|]. by intros [|? ?]. }
  destruct (make_a_commit_multi (task_reponame taskjson) reposaves false w)
    as [[[]|e] w1] eqn:E1.
  - destruct (make_a_commit_multi_frame _ _ _ _ _ _ E1) as (Ht1 & Hc1 & _).
    destruct (non_interactive_submit_commit_multi git_out user_login_out
                create_pr_out (task_reponame taskjson) reposaves w1)
      as [[msg|e] w2] eqn:E2;
      destruct (submit_commit_outcome _ _ _ _ _ E2)
        as (_ & _ & Ht & _ & new & Hc & He & Hf);
      rewrite Hc1 in *; eexists _, _, new; (split; [reflexivity|]); cbn.
    + split_and!; [by rewrite Ht, Ht1|done|done].
    + destruct (He _ eq_refl) as (? & ? & _).
      split_and!; [by rewrite Ht, Ht1|done|done|done|].
      intros pre c post Heq Hfail. by destruct (Hf _ _ _ Heq Hfail).
  - destruct (make_a_commit_multi_frame _ _ _ _ _ _ E1) as (_ & _ & He).
    destruct (He _ eq_refl) as [-> ->].
    eexists _, _, []. split; [reflexivity|].
    split_and!; try done; [by rewrite app_nil_r|]. by intros [|? ?].
Qed.


End Collaborators.

End Pipeline.

(** ** Instances *)

Section Instances.
Import WebState Submit.

(** C1 at a sample schedule: after [stop], two timeouts, a null answer and an
    attempt of [join] to return, the worker is still parked. *)
Lemma stop_during_get_await_never_unparks_witness :
  alive (st (run_schedule (LStop :: [LWake; LAnswer None; LWake; LJoin]) parked))
    = false
  ∧ worker (run_schedule (LStop :: [LWake; LAnswer None; LWake; LJoin]) parked)
    = WWaiting
  ∧ stopper (run_schedule (LStop :: [LWake; LAnswer None; LWake; LJoin]) parked)
    = SJoining.
Proof.
  apply (stop_during_get_await_never_unparks parked
           [LWake; LAnswer None; LWake; LJoin]);
    [reflexivity | reflexivity | reflexivity | repeat constructor].
Defined.

(** C2 at a sample schedule with a timeout and a call of [stop] before the
    answer. *)
Lemma get_await_returns_supplied_answer_witness :
  worker (run_schedule
            (LAsk sample_key :: [LWake; LStop] ++
               [LAnswer (Some (AnsBool true)); LWake; LReturn]) in_task)
  = WGot (Some (AnsBool true))
  ∧ await_key
      (st (run_schedule
             (LAsk sample_key :: [LWake; LStop] ++
                [LAnswer (Some (AnsBool true)); LWake; LReturn]) in_task))
    = None.
Proof.
  apply (get_await_returns_supplied_answer in_task sample_key [LWake; LStop]);
    [reflexivity | repeat constructor | repeat constructor].
Defined.

(** C10 at a sample schedule: a null answer does not unblock the worker. *)
Lemma get_await_never_returns_None_witness :
  worker (run_schedule (LAsk sample_key :: [LAnswer None; LWake]) in_task)
  = WWaiting.
Proof.
  apply (get_await_never_returns_None in_task sample_key [LAnswer None; LWake]);
    [reflexivity | repeat constructor].
Defined.

(** C9 at the fix [recieve -> receive] over [a.md]. *)
Lemma single_fix_commit_first_line_witness :
  ∃ text w',
    make_a_commit_multi "R" [fix_receive] false empty_world = (Ok tt, w')
    ∧ files w' !! "/work/R/__commit__.txt" = Some text
    ∧ first_line text = "docs: fix simple typo, recieve -> receive".
Proof.
  apply (single_fix_commit_first_line "R" fix_receive false empty_world);
    reflexivity.
Defined.

(** C3. What the code does when the store holds a fix for [R] and a fix for
    [R2] and [submit] runs for [R]: it writes the empty list back, so the fix
    saved for [R2] is removed as well, instead of being left unchanged. *)
Lemma submit_wipes_other_repositories :
  stored_for "R2" world_two_repos = [fix_elsewhere]
  ∧ stored_for "R2"
      (snd (submit no_templates operator_agrees (submit_task "R") world_two_repos))
    = [].
Proof. split; reflexivity. Qed.

(** C4, as stated, fails: on an empty store the policy step raises nothing and
    adds the terminal task with an empty batch. *)
Lemma submit_enqueues_empty_batch :
  fst (submit no_templates operator_agrees (submit_task "R") empty_world) = Ok tt
  ∧ tasks (snd (submit no_templates operator_agrees (submit_task "R") empty_world))
    = [terminal_task "R" []].
Proof. split; reflexivity. Qed.

(** C4, amended, at a batch whose two records disagree on the path. *)
Lemma invalid_batch_rejected_at_prepare_witness :
  (∃ w', submit no_templates operator_agrees (submit_task "R") world_two_repos
         = (Ok tt, w')
         ∧ tasks w' = tasks world_two_repos ++
             [terminal_task "R" (stored_for "R" world_two_repos)])
  ∧ (∃ msg, non_interactive_prepare_commit_multi git_fails
              [fix_receive; fix_elsewhere] world_two_repos
            = (Err (ValueError msg), world_two_repos)).
Proof.
  apply (invalid_batch_rejected_at_prepare git_fails no_templates operator_agrees
           (submit_task "R") [fix_receive; fix_elsewhere] world_two_repos).
  right. exists fix_receive, fix_elsewhere.
  split_and!; [set_solver | set_solver | discriminate].
Defined.

(** C8, as stated, fails: git fails, the submission of the fix is reported as
    failed, and the handler of [plain_pr] adds the cleanup task all the
    same. *)
Lemma failed_submission_still_enqueues_cleanup :
  fst (non_interactive_submit_commit_multi git_fails login_ok create_pr_ok
         "R" [fix_receive]
         (snd (make_a_commit_multi "R" [fix_receive] false empty_world)))
  = Ok "Failed to commit for R."
  ∧ fst (plain_pr git_fails login_ok create_pr_ok
           (plain_pr_task "R" [fix_receive]) empty_world) = Ok tt
  ∧ tasks (snd (plain_pr git_fails login_ok create_pr_ok
                  (plain_pr_task "R" [fix_receive]) empty_world))
    = [cleanup_task "R"].
Proof. split_and!; vm_compute; reflexivity. Qed.

End Instances.

(** ** Reading the staged diff *)

Section Typo.
Import Submit SubmitRest.

Lemma all_alpha_no_newline (w : string) :
  all_alpha w = true → has_newline w = false.
Proof.
  induction w as [|c w IH]; [done|]. simpl.
  intros [Hc Hw]%andb_prop. rewrite (IH Hw), orb_false_r.
  destruct (Ascii.eqb_spec c "010"%char) as [->|]; [|done].
  by vm_compute in Hc.
Qed.

Lemma findall_alpha_words (s : string) :
  Forall (λ w, all_alpha w = true ∧ w ≠ EmptyString) (findall_alpha s).
Proof.
  induction s as [|c s IH]; [constructor|].
  simpl. destruct (is_alpha c) eqn:Hc; [|done].
  destruct s as [|d s'].
  - constructor; [|constructor]. simpl. by rewrite Hc.
  - destruct (is_alpha d) eqn:Hd.
    + destruct (findall_alpha (String d s')) as [|w ws].
      * constructor; [|constructor]. simpl. by rewrite Hc.
      * inversion_clear IH as [|? ? [Hw _] Hws].
        constructor; [|done]. simpl. by rewrite Hc, Hw.
    + constructor; [|done]. simpl. by rewrite Hc.
Qed.

Lemma first_difference_Some (ds ws : list string) (d a : string) :
  first_difference ds ws = Some (d, a) → d ∈ ds ∧ a ∈ ws ∧ d ≠ a.
Proof.
  revert ws. induction ds as [|x ds IH]; intros [|y ws] H; simpl in H; try done.
  case_bool_decide as Hne.
  - injection H as <- <-. split_and!; [left | left | done].
  - destruct (IH _ H) as (? & ? & ?). split_and!; [by right | by right | done].
Qed.



(** When [get_typo] returns, the two words differ, and each is a non-empty
    run of letters; in particular neither holds a line feed. *)
Theorem get_typo_words (output del_word add_word : string)
    (file_paths : list string) :
  get_typo output = inr (del_word, add_word, file_paths) →
  del_word ≠ add_word
  ∧ all_alpha del_word = true ∧ del_word ≠ EmptyString
  ∧ all_alpha add_word = true ∧ add_word ≠ EmptyString
  ∧ has_newline del_word = false ∧ has_newline add_word = false.
Proof.
  unfold get_typo. destruct (changed_lines _) as [[|dl ?] [|al ?]]; try done.
  destruct (first_difference _ _) as [[d a]|] eqn:E; [|done].
  intros [= -> -> _].
  destruct (first_difference_Some _ _ _ _ E) as (Hd & Ha & Hne).
  pose proof (findall_alpha_words dl) as Fd.
  pose proof (findall_alpha_words al) as Fa.
  rewrite Forall_forall in Fd, Fa.
  destruct (Fd _ Hd) as [? ?], (Fa _ Ha) as [? ?].
  split_and!; try done; by apply all_alpha_no_newline.
Qed.



End Typo.

Section TypoInstances.
Import Submit SubmitRest.

Lemma get_typo_words_witness :
  "recieve" ≠ "receive"
  ∧ all_alpha "recieve" = true ∧ "recieve" ≠ EmptyString
  ∧ all_alpha "receive" = true ∧ "receive" ≠ EmptyString
  ∧ has_newline "recieve" = false ∧ has_newline "receive" = false.
Proof.
  apply (get_typo_words sample_diff "recieve" "receive" ["a.md"]).
  vm_compute. reflexivity.
Defined.



End TypoInstances.

(** ** Commit-like files *)

Section CommitFiles.
Import Submit SubmitRest.

Local Ltac unfold_M :=
  unfold mbind, M_bind, bind, mret, M_ret, ret, raise, try_except in *.

















End CommitFiles.

Section CommitInstances.
Import Submit SubmitRest.





End CommitInstances.

(** ** Starting and stopping the worker *)

Section Threads.
Import WebState WebStateRest.

Implicit Types (c : Config) (l : Label) (ls : list Label).

Local Ltac thread_cases c l :=
  destruct c as [[? ? ? [?|] [?|] ?] [| | | | | ?|] [| |]];
  destruct l as [?| |?|?| | | | |[?|]| |];
  cbn in *; try done; repeat case_match; cbn in *; simplify_eq; try done.

Lemma fire_stop_inv c l : stop_inv c → stop_inv (fire l c).
Proof. unfold stop_inv. intros H. thread_cases c l; intuition congruence. Qed.

Lemma run_stop_inv ls : ∀ c, stop_inv c → stop_inv (run_schedule ls c).
Proof.
  induction ls as [|l ls IH]; intros c H; [done|].
  rewrite run_schedule_cons. by apply IH, fire_stop_inv.
Qed.

(** [stop] joins the worker: in every interleaving, once [stop] has returned
    the worker thread has left [run], the liveness flag is cleared, and
    [thread] and [started_at] are reset. *)
Theorem stop_returns_after_worker_exit c ls :
  stopper c = SIdle →
  stopper (run_schedule ls c) = SReturned →
  worker (run_schedule ls c) = WExited
  ∧ alive (st (run_schedule ls c)) = false
  ∧ thread (st (run_schedule ls c)) = None
  ∧ started_at (st (run_schedule ls c)) = None.
Proof.
  intros Hs Hr.
  assert (stop_inv (run_schedule ls c)) as H.
  { apply run_stop_inv. unfold stop_inv. by rewrite Hs. }
  unfold stop_inv in H. by rewrite Hr in H.
Qed.




Lemma fire_winding_down c l :
  winding_down c →
  winding_down (fire l c) ∧ messages (st (fire l c)) = messages (st c)
  ∧ (l = LLoop → worker (fire l c) = WExited)
  ∧ (worker c = WExited → worker (fire l c) = WExited).
Proof.
  unfold winding_down. intros (Ha & Hw).
  thread_cases c l; intuition congruence.
Qed.

Lemma run_winding_down ls : ∀ c,
  winding_down c →
  winding_down (run_schedule ls c)
  ∧ messages (st (run_schedule ls c)) = messages (st c)
  ∧ (worker c = WExited ∨ LLoop ∈ ls → worker (run_schedule ls c) = WExited).
Proof.
  induction ls as [|l ls IH]; intros c H.
  - split_and!; [done | done |]. intros [?|?%elem_of_nil]; done.
  - rewrite run_schedule_cons.
    destruct (fire_winding_down c l H) as (H' & Hm & Hl & He).
    destruct (IH _ H') as (H2 & Hm2 & He2).
    split_and!; [done | congruence |].
    intros [Hx|Hin]; apply He2.
    + left. by apply He.
    + apply elem_of_cons in Hin as [<-|Hin]; [left; by apply Hl | by right].
Qed.

(** Between two tasks, [stop] is graceful: when the flag is cleared and the
    worker is at the loop test of [run], no further task begins in any
    interleaving; the worker sends nothing more, and it has exited once it has
    evaluated the loop test. *)
Theorem cleared_flag_ends_run c ls :
  alive (st c) = false → worker c = WLoopTest →
  (worker (run_schedule ls c) = WLoopTest ∨ worker (run_schedule ls c) = WExited)
  ∧ messages (st (run_schedule ls c)) = messages (st c)
  ∧ (LLoop ∈ ls → worker (run_schedule ls c) = WExited).
Proof.
  intros Ha Hw.
  assert (winding_down c) as H by (split; [done | by left]).
  destruct (run_winding_down ls c H) as ((_ & Hw') & Hm & He).
  split_and!; [done | done | auto].
Qed.

Lemma fire_messages c l :
  ∃ new, messages (st (fire l c)) = messages (st c) ++ new
         ∧ new `sublist_of` sent_messages [l].
Proof.
  assert ((∃ m, l = LSend m ∧ worker c = WInTask)
          ∨ messages (st (fire l c)) = messages (st c)) as [(m & -> & Hw)|Hn].
  { thread_cases c l; eauto. }
  - exists [m]. destruct c as [[] ? ?]; cbn in *; subst. by cbn.
  - exists []. split; [|apply sublist_nil_l]. by rewrite app_nil_r.
Qed.

(** The messages are only appended to: in every interleaving the list of
    messages keeps what it held, in order, and what is added are messages of
    [send] calls, in the order of the calls. *)
Theorem messages_only_grow c ls :
  ∃ new, messages (st (run_schedule ls c)) = messages (st c) ++ new
         ∧ new `sublist_of` sent_messages ls.
Proof.
  revert c. induction ls as [|l ls IH]; intros c.
  - exists []. by rewrite app_nil_r.
  - rewrite run_schedule_cons.
    destruct (fire_messages c l) as (n1 & E1 & S1).
    destruct (IH (fire l c)) as (n2 & E2 & S2).
    exists (n1 ++ n2). split; [by rewrite E2, E1, app_assoc|].
    change (sent_messages (l :: ls)) with (sent_messages ([l] ++ ls)).
    unfold sent_messages in *. rewrite omap_app. by apply sublist_app.
Qed.

End Threads.

Section ThreadInstances.
Import WebState WebStateRest.

Lemma stop_returns_after_worker_exit_witness :
  worker (run_schedule [LStop; LTaskEnd; LLoop; LJoin] in_task) = WExited
  ∧ alive (st (run_schedule [LStop; LTaskEnd; LLoop; LJoin] in_task)) = false
  ∧ thread (st (run_schedule [LStop; LTaskEnd; LLoop; LJoin] in_task)) = None
  ∧ started_at (st (run_schedule [LStop; LTaskEnd; LLoop; LJoin] in_task)) = None.
Proof.
  apply (stop_returns_after_worker_exit in_task [LStop; LTaskEnd; LLoop; LJoin]);
    reflexivity.
Defined.


Lemma cleared_flag_ends_run_witness :
  (worker (run_schedule [LAnswer None; LLoop; LSend "late"] stopped_at_loop_test)
     = WLoopTest
   ∨ worker (run_schedule [LAnswer None; LLoop; LSend "late"] stopped_at_loop_test)
     = WExited)
  ∧ messages (st (run_schedule [LAnswer None; LLoop; LSend "late"]
                    stopped_at_loop_test))
    = messages (st stopped_at_loop_test)
  ∧ (LLoop ∈ [LAnswer None; LLoop; LSend "late"] →
     worker (run_schedule [LAnswer None; LLoop; LSend "late"] stopped_at_loop_test)
     = WExited).
Proof.
  apply (cleared_flag_ends_run stopped_at_loop_test
           [LAnswer None; LLoop; LSend "late"]); reflexivity.
Defined.

End ThreadInstances.

(** ** Submitting a batch *)

Section Submission.
Import Submit SubmitRest.

Local Ltac unfold_M :=
  unfold mbind, M_bind, bind, mret, M_ret, ret, raise, try_except in *.

Variable git_out : list Call -> string -> list string -> option string.
Variable user_login_out : list Call -> option string.
Variable create_pr_out :
  list Call -> string -> string -> string -> string -> string -> option PullRequest.
Variable display_and_check_files : string -> bool.
Variable get_confirmation : string -> bool.

(** [full_pr_for] begins with a call of [make_issue_multi], a name that is
    bound neither in the function nor in the module: for every batch it raises
    [NameError] before anything is written, committed or pushed, and the
    handler of [full_pr] adds no cleanup task. *)
Theorem full_pr_raises_NameError (reponame : string)
    (reposaves : list RepoSave) (w : World) :
  full_pr_for git_out user_login_out create_pr_out reponame reposaves w
  = (Err (NameError "make_issue_multi"), w)
  ∧ full_pr git_out user_login_out create_pr_out
      (mkTask "full_pr" false None reponame (Some reposaves)) w
    = (Err (NameError "make_issue_multi"), w).
Proof. split; reflexivity. Qed.

(** The task that [submit] adds is served by a handler of [submit_handlers],
    and that handler raises [NameError]: a submission that goes through
    [submit] files nothing, makes no external call and adds no cleanup
    task. *)
Theorem submitted_task_ends_in_NameError (taskjson : Task) (w : World) :
  ∃ w1 task handler,
    submit display_and_check_files get_confirmation taskjson w = (Ok tt, w1)
    ∧ last (tasks w1) = Some task
    ∧ dict_get (name task)
        (submit_handlers git_out user_login_out create_pr_out
           display_and_check_files get_confirmation) = Some handler
    ∧ handler task w1 = (Err (NameError "reposave"), w1).
Proof.
  eexists _, _, _. split; [apply submit_outcome|].
  split; [cbn; apply last_snoc|]. split; reflexivity.
Qed.


Lemma contains_app (c : ascii) (a b : string) :
  contains c (a +:+ b) = contains c a || contains c b.
Proof.
  induction a as [|x a IH]; [done|].
  rewrite string_app_cons. simpl. by rewrite IH, orb_assoc.
Qed.

Lemma replace_space_no_space (a : string) :
  contains " " (replace_space a) = false.
Proof.
  induction a as [|c a IH]; [done|].
  cbn [replace_space contains]. rewrite IH, orb_false_r.
  destruct (Ascii.eqb_spec c " "%char) as [->|Hne]; [done|].
  rewrite Ascii.eqb_sym. by apply Ascii.eqb_neq.
Qed.

(** A successful [non_interactive_prepare_commit_multi]: the records of the
    batch agree on the working copy, exactly three git commands have run
    there, in the order symbolic-ref, commit, push, the push sends the
    checked-out branch to the new branch, and the name of the new branch holds
    no space; it is [bugfix_typos] exactly for a batch of several records.  No
    file is changed. *)
Theorem prepared_branch_is_pushed (reposaves : list RepoSave) (w w' : World)
    (title body from_branch to_branch : string) :
  non_interactive_prepare_commit_multi git_out reposaves w
  = (Ok (title, body, from_branch, to_branch), w') →
  contains " " from_branch = false
  ∧ (from_branch = "bugfix_typos" ↔ length reposaves ≠ 1)
  ∧ files w' = files w
  ∧ ∃ reposave rest,
      reposaves = reposave :: rest
      ∧ Forall (λ check, save_repodir check = save_repodir reposave) rest
      ∧ calls w' = calls w ++
          [ symbolic_ref_call (save_repodir reposave);
            commit_call (save_repodir reposave);
            push_call (save_repodir reposave) to_branch from_branch ].
Proof.
  destruct reposaves as [|reposave rest]; [done|].
  unfold non_interactive_prepare_commit_multi.
  destruct (existsb _ _) eqn:Hex; [done|].
  assert (Forall (λ check, save_repodir check = save_repodir reposave) rest) as Hall.
  { apply Forall_forall. intros r Hr.
    destruct (decide (save_repodir reposave = save_repodir r)) as [|Hne]; [done|].
    assert (existsb (λ check,
              bool_decide (save_repodir reposave ≠ save_repodir check))
              (reposave :: rest) = true) as Ht; [|congruence].
    apply existsb_exists. exists r. split.
    - right. by apply list_elem_of_In.
    - by apply bool_decide_eq_true. }
  destruct w as [fs sto ts ms cs].
  unfold load_commit_like_file, push_commit_multi, read_text, git. unfold_M. cbn.
  intros H.
  repeat (case_match; cbn in *; simplify_eq).
  all: rewrite <- ?app_assoc; cbn [app].
  all: split_and!; try done.
  - by rewrite contains_app, replace_space_no_space.
  - split; [intros Heq; vm_compute in Heq; discriminate|].
    intros Hn. destruct Hn.
    match goal with Hb : bool_decide _ = true |- _ =>
      by apply bool_decide_eq_true in Hb end.
  - eexists _, _. split_and!; [done | done | reflexivity].
  - split; [|done]. intros _.
    match goal with Hb : bool_decide _ = false |- _ =>
      by apply bool_decide_eq_false in Hb end.
  - eexists _, _. split_and!; [done | done | reflexivity].
Qed.


(** [amend_commit] changes nothing but the log of git commands; it pushes
    with force only after the amend succeeded, and the refspec of that push is
    [<to_branch>:<from_branch>]; it raises [ProcessExecutionError] exactly
    when one of the two commands fails. *)
Theorem amend_commit_pushes_after_amend (reposave : RepoSave)
    (from_branch to_branch : string) (w : World) :
  ∃ r w',
    amend_commit git_out reposave from_branch to_branch w = (r, w')
    ∧ files w' = files w ∧ storage w' = storage w ∧ tasks w' = tasks w
    ∧ sent w' = sent w
    ∧ if call_failed git_out user_login_out create_pr_out (calls w)
           (amend_call (save_repodir reposave))
      then r = Err ProcessExecutionError
           ∧ calls w' = calls w ++ [amend_call (save_repodir reposave)]
      else calls w' = calls w ++
             [ amend_call (save_repodir reposave);
               force_push_call (save_repodir reposave) from_branch to_branch ]
           ∧ r = if call_failed git_out user_login_out create_pr_out
                      (calls w ++ [amend_call (save_repodir reposave)])
                      (force_push_call (save_repodir reposave)
                         from_branch to_branch)
                 then Err ProcessExecutionError else Ok tt.
Proof.
  destruct w as [fs sto ts ms cs].
  unfold amend_commit, git, call_failed, amend_call, force_push_call.
  unfold_M. cbn.
  repeat (case_match; cbn in *; simplify_eq);
    repeat case_bool_decide; simplify_eq;
    eexists _, _; (split; [reflexivity|]); cbn;
    rewrite <- ?app_assoc; split_and!; done.
Qed.

End Submission.

Section SubmissionInstances.
Import Submit SubmitRest.

Lemma prepared_branch_is_pushed_witness :
  contains " " "bugfix_typo_receive" = false
  ∧ ("bugfix_typo_receive" = "bugfix_typos" ↔ length [fix_receive] ≠ 1)
  ∧ files (snd (non_interactive_prepare_commit_multi git_ok [fix_receive]
                  (world_with_commit (commit_text "recieve" "receive" "a.md" +:+ nl))))
    = files (world_with_commit (commit_text "recieve" "receive" "a.md" +:+ nl))
  ∧ ∃ reposave rest,
      [fix_receive] = reposave :: rest
      ∧ Forall (λ check, save_repodir check = save_repodir reposave) rest
      ∧ calls (snd (non_interactive_prepare_commit_multi git_ok [fix_receive]
                      (world_with_commit
                         (commit_text "recieve" "receive" "a.md" +:+ nl))))
        = calls (world_with_commit (commit_text "recieve" "receive" "a.md" +:+ nl)) ++
          [ symbolic_ref_call (save_repodir reposave);
            commit_call (save_repodir reposave);
            push_call (save_repodir reposave) "main" "bugfix_typo_receive" ].
Proof.
  apply (prepared_branch_is_pushed git_ok [fix_receive]
           (world_with_commit (commit_text "recieve" "receive" "a.md" +:+ nl))
           (snd (non_interactive_prepare_commit_multi git_ok [fix_receive]
                   (world_with_commit
                      (commit_text "recieve" "receive" "a.md" +:+ nl))))
           "docs: fix simple typo, recieve -> receive"
           ("There is a small typo in a.md." +:+ nl +:+ nl +:+
            "Should read `receive` rather than `recieve`." +:+ nl +:+ nl)
           "bugfix_typo_receive" "main").
  vm_compute. reflexivity.
Defined.


End SubmissionInstances.

(** ** Issue files and the menu *)

Section IssueFiles.
Import Submit SubmitRest.

Local Ltac unfold_M :=
  unfold mbind, M_bind, bind, mret, M_ret, ret, raise, try_except in *.

Variable user_login_out : list Call -> option string.
Variable issue_via_api : string -> string -> string -> M N.
Variable path_exists : string -> bool.


Lemma dict_get_set_eq {V} (k : string) (v : V) (d : list (string * V)) :
  dict_get k (dict_set k v d) = Some v.
Proof.
  induction d as [|[k' v'] d IH]; cbn; [by rewrite String.eqb_refl|].
  destruct (String.eqb k k') eqn:E; cbn; [by rewrite String.eqb_refl|].
  by rewrite E.
Qed.

Lemma dict_get_set_ne {V} (k k' : string) (v : V) (d : list (string * V)) :
  k ≠ k' → dict_get k (dict_set k' v d) = dict_get k d.
Proof.
  intros Hne. apply String.eqb_neq in Hne.
  induction d as [|[k2 v2] d IH]; cbn; [by rewrite Hne|].
  destruct (String.eqb k' k2) eqn:E; cbn.
  - apply String.eqb_eq in E. subst k2. by rewrite Hne.
  - by destruct (String.eqb k k2).
Qed.

Lemma dict_set_keys {V} (k x : string) (v : V) (d : list (string * V)) :
  x ∈ (dict_set k v d).*1 → x = k ∨ x ∈ d.*1.
Proof.
  induction d as [|[k' v'] d IH]; cbn.
  - intros ?%list_elem_of_singleton. by left.
  - destruct (String.eqb k k') eqn:E; cbn.
    + apply String.eqb_eq in E. subst k'. intros ?. by right.
    + rewrite !elem_of_cons. intros [->|H]; [right; by left|].
      destruct (IH H); [by left | right; by right].
Qed.

Lemma dict_set_NoDup {V} (k : string) (v : V) (d : list (string * V)) :
  NoDup d.*1 → NoDup (dict_set k v d).*1.
Proof.
  induction d as [|[k' v'] d IH]; cbn; intros H.
  - apply NoDup_singleton.
  - apply NoDup_cons in H as [Hnin Hnd].
    destruct (String.eqb k k') eqn:E; cbn.
    + apply String.eqb_eq in E. subst k'. by apply NoDup_cons.
    + apply NoDup_cons. split; [|by apply IH].
      intros [->|?]%dict_set_keys; [|done].
      by rewrite String.eqb_refl in E.
Qed.

Lemma string_app_inj (a p q : string) : a +:+ p = a +:+ q → p = q.
Proof.
  induction a as [|c a IH]; [done|].
  rewrite !string_app_cons. intros [= H]. by apply IH.
Qed.

Lemma show_choices_cons (reponame repodirpath path : string)
    (paths : list string) (d : list (string * (Handler * MenuContext))) :
  show_choices path_exists reponame repodirpath (path :: paths) d
  = ((reponame +:+ " " +:+
      (if path_exists (path_join repodirpath path)
       then "HAS" else "does not have") +:+ " " +:+ path)
     :: fst (show_choices path_exists reponame repodirpath paths
               (if path_exists (path_join repodirpath path)
                then dict_set ("show " +:+ path) (show_path_handler, CtxPath path) d
                else d)),
     snd (show_choices path_exists reponame repodirpath paths
            (if path_exists (path_join repodirpath path)
             then dict_set ("show " +:+ path) (show_path_handler, CtxPath path) d
             else d))).
Proof. cbn [show_choices]. by destruct (show_choices _ _ _ _ _). Qed.

Lemma show_choices_length (reponame repodirpath : string) (paths : list string) :
  ∀ d, length (fst (show_choices path_exists reponame repodirpath paths d))
       = length paths.
Proof.
  induction paths as [|path paths IH]; intros d; [done|].
  rewrite show_choices_cons. cbn [fst length]. by rewrite IH.
Qed.

Lemma show_choices_NoDup (reponame repodirpath : string) (paths : list string) :
  ∀ d, NoDup d.*1 →
       NoDup (snd (show_choices path_exists reponame repodirpath paths d)).*1.
Proof.
  induction paths as [|path paths IH]; intros d Hd; [done|].
  rewrite show_choices_cons. cbn [snd]. apply IH.
  destruct (path_exists _); [by apply dict_set_NoDup | done].
Qed.

(** A key that is no [show] entry of the paths is left as it was. *)
Lemma show_choices_get_other (reponame repodirpath k : string)
    (paths : list string) :
  ∀ d, (∀ path, path ∈ paths → k ≠ "show " +:+ path) →
       dict_get k (snd (show_choices path_exists reponame repodirpath paths d))
       = dict_get k d.
Proof.
  induction paths as [|path paths IH]; intros d Hk; [done|].
  rewrite show_choices_cons. cbn [snd].
  rewrite IH by (intros q Hq; apply Hk; by right).
  destruct (path_exists _); [|done].
  apply dict_get_set_ne, Hk. by left.
Qed.

(** The [show] entry of a path of the loop. *)
Lemma show_choices_get_show (reponame repodirpath path : string)
    (paths : list string) :
  ∀ d, path ∈ paths →
       dict_get ("show " +:+ path)
         (snd (show_choices path_exists reponame repodirpath paths d))
       = if path_exists (path_join repodirpath path)
         then Some (show_path_handler, CtxPath path)
         else dict_get ("show " +:+ path) d.
Proof.
  induction paths as [|q paths IH]; intros d Hin; [by apply elem_of_nil in Hin|].
  rewrite show_choices_cons. cbn [snd].
  destruct (decide (path ∈ paths)) as [Hp|Hp].
  - rewrite (IH _ Hp).
    destruct (path_exists (path_join repodirpath path)) eqn:E; [done|].
    destruct (decide (q = path)) as [->|Hne]; [by rewrite E|].
    destruct (path_exists (path_join repodirpath q)); [|done].
    apply dict_get_set_ne. intros H%string_app_inj. congruence.
  - apply elem_of_cons in Hin as [->|Hin]; [|done].
    rewrite show_choices_get_other.
    + destruct (path_exists (path_join repodirpath q));
        [apply dict_get_set_eq | done].
    + intros p Hin H%string_app_inj. congruence.
Qed.



(** Without [__issue__.txt], [submit_issue] raises [FileNotFoundError] before
    the API is called, whatever the API would do, and writes no commit
    file. *)
Theorem submit_issue_needs_issue_file (reponame : string) (reposave : RepoSave)
    (ctxt : MenuContext) (w : World) :
  files w !! path_join (save_repodir reposave) "__issue__.txt" = None →
  submit_issue issue_via_api reponame reposave ctxt w
  = (Err (FileNotFoundError (path_join (save_repodir reposave) "__issue__.txt")),
     w).
Proof.
  intros Hf. unfold submit_issue, load_commit_like_file, read_text. unfold_M.
  by rewrite Hf.
Qed.

(** The menu of [get_pr_or_issue_choices]: its keys are distinct; the three
    [make] entries are always offered; one line is printed for each of the
    seven paths, and a [show] entry is offered exactly for the paths that
    exist; [submit commit] is offered exactly when [__commit__.txt] exists, and
    [submit issue] when [__issue__.txt] or [__commit__.txt] exists (so also
    when there is no issue file to submit). *)
Theorem menu_reflects_working_copy (reponame repodirpath : string) :
  NoDup (fst <$> snd (get_pr_or_issue_choices path_exists reponame repodirpath))
  ∧ length (fst (get_pr_or_issue_choices path_exists reponame repodirpath)) = 7
  ∧ dict_get "make a commit"
      (snd (get_pr_or_issue_choices path_exists reponame repodirpath))
    = Some (make_a_commit_handler, CtxBool false)
  ∧ dict_get "make a full issue"
      (snd (get_pr_or_issue_choices path_exists reponame repodirpath))
    = Some (make_issue_handler, CtxBool true)
  ∧ dict_get "make a short issue"
      (snd (get_pr_or_issue_choices path_exists reponame repodirpath))
    = Some (make_issue_handler, CtxBool false)
  ∧ dict_get "submit commit"
      (snd (get_pr_or_issue_choices path_exists reponame repodirpath))
    = (if path_exists (path_join repodirpath "__commit__.txt")
       then Some (submit_commit_handler, CtxNone) else None)
  ∧ dict_get "submit issue"
      (snd (get_pr_or_issue_choices path_exists reponame repodirpath))
    = (if path_exists (path_join repodirpath "__issue__.txt")
          || path_exists (path_join repodirpath "__commit__.txt")
       then Some (submit_issue_handler, CtxNone) else None)
  ∧ Forall
      (λ path,
         dict_get ("show " +:+ path)
           (snd (get_pr_or_issue_choices path_exists reponame repodirpath))
         = (if path_exists (path_join repodirpath path)
            then Some (show_path_handler, CtxPath path) else None))
      [ ".github/ISSUE_TEMPLATE"; ".github/pull_request_template.md";
        "CONTRIBUTING.md"; "__pr__.txt"; "__issue__.txt"; "__commit__.txt";
        "__no_issues__.txt" ].
Proof.
  unfold get_pr_or_issue_choices.
  change (path_join ".github" "ISSUE_TEMPLATE") with ".github/ISSUE_TEMPLATE".
  change (path_join ".github" "pull_request_template.md")
    with ".github/pull_request_template.md".
  pose proof (show_choices_length reponame repodirpath
    [ ".github/ISSUE_TEMPLATE"; ".github/pull_request_template.md";
      "CONTRIBUTING.md"; "__pr__.txt"; "__issue__.txt"; "__commit__.txt";
      "__no_issues__.txt" ] []) as Hlen.
  pose proof (show_choices_NoDup reponame repodirpath
    [ ".github/ISSUE_TEMPLATE"; ".github/pull_request_template.md";
      "CONTRIBUTING.md"; "__pr__.txt"; "__issue__.txt"; "__commit__.txt";
      "__no_issues__.txt" ] [] NoDup_nil_2) as Hnd.
  pose proof (λ k, show_choices_get_other reponame repodirpath k
    [ ".github/ISSUE_TEMPLATE"; ".github/pull_request_template.md";
      "CONTRIBUTING.md"; "__pr__.txt"; "__issue__.txt"; "__commit__.txt";
      "__no_issues__.txt" ] []) as Hother.
  pose proof (λ path, show_choices_get_show reponame repodirpath path
    [ ".github/ISSUE_TEMPLATE"; ".github/pull_request_template.md";
      "CONTRIBUTING.md"; "__pr__.txt"; "__issue__.txt"; "__commit__.txt";
      "__no_issues__.txt" ] []) as Hshow.
  destruct (show_choices path_exists reponame repodirpath _ [])
    as [printed choices].
  cbn [fst snd] in *.
  assert (∀ k, (∀ path, k ≠ "show " +:+ path) → dict_get k choices = None)
    as Hnone.
  { intros k Hk. rewrite Hother; [done|]. intros path _. apply Hk. }
  assert (Forall
            (λ path,
               dict_get ("show " +:+ path) choices
               = (if path_exists (path_join repodirpath path)
                  then Some (show_path_handler, CtxPath path) else None))
            [ ".github/ISSUE_TEMPLATE"; ".github/pull_request_template.md";
              "CONTRIBUTING.md"; "__pr__.txt"; "__issue__.txt"; "__commit__.txt";
              "__no_issues__.txt" ]) as Hpaths.
  { apply Forall_forall. intros path Hin. by rewrite (Hshow path Hin). }
  assert (∀ path,
            "show " +:+ path ≠ "make a commit"
            ∧ "show " +:+ path ≠ "make a full issue"
            ∧ "show " +:+ path ≠ "make a short issue"
            ∧ "show " +:+ path ≠ "submit issue"
            ∧ "show " +:+ path ≠ "submit commit") as Hkeys.
  { intros path. split_and!; intros H; vm_compute in H; discriminate H. }
  assert (∀ k : string,
            k = "make a commit" ∨ k = "make a full issue"
            ∨ k = "make a short issue" ∨ k = "submit issue"
            ∨ k = "submit commit" →
            ∀ path, k ≠ "show " +:+ path) as Hplain.
  { intros k Hk path ->. destruct (Hkeys path) as (? & ? & ? & ? & ?).
    intuition. }
  destruct (path_exists (path_join repodirpath "__issue__.txt"));
    destruct (path_exists (path_join repodirpath "__commit__.txt")); cbn [orb].
  all: split_and!;
    [ by repeat apply dict_set_NoDup
    | done
    | rewrite ?dict_get_set_ne by done; apply dict_get_set_eq
    | rewrite ?dict_get_set_ne by done; apply dict_get_set_eq
    | rewrite ?dict_get_set_ne by done; apply dict_get_set_eq
    | rewrite ?dict_get_set_ne by done;
      first [apply dict_get_set_eq | apply Hnone, Hplain; tauto]
    | rewrite ?dict_get_set_ne by done;
      first [apply dict_get_set_eq | apply Hnone, Hplain; tauto]
    | eapply Forall_impl; [exact Hpaths|];
      intros path Hp; cbn beta in *;
      destruct (Hkeys path) as (? & ? & ? & ? & ?);
      by rewrite ?dict_get_set_ne by done ].
Qed.

End IssueFiles.

Section IssueInstances.
Import Submit SubmitRest.



Lemma submit_issue_needs_issue_file_witness :
  submit_issue issue_api_ok "R" fix_receive CtxNone
    (world_with_commit (commit_text "recieve" "receive" "a.md" +:+ nl))
  = (Err (FileNotFoundError (path_join "/work/R" "__issue__.txt")),
     world_with_commit (commit_text "recieve" "receive" "a.md" +:+ nl)).
Proof.
  apply (submit_issue_needs_issue_file issue_api_ok "R" fix_receive CtxNone
           (world_with_commit (commit_text "recieve" "receive" "a.md" +:+ nl))).
  vm_compute. reflexivity.
Defined.

End IssueInstances.
